(** * Moderation views of django-machina: lock, delete and move a topic

    Shallow embedding of [machina/apps/forum_moderation/views.py].

    The three class-based views fetch a topic through the ORM, mutate the
    Python object, persist it and answer with a redirect.  The embedding keeps
    the pieces the code relies on:

    - the database, as two tables keyed by primary key;
    - the Python heap of model instances, because [form_valid] mutates the
      topic through the alias [topic = self.object] and reads it back through
      [self.object] in [get_success_url];
    - the chronological list of observable effects (flash messages, calls to
      [save()] and [delete()], queries to the permission handler);
    - exceptions, as a result type threaded through a state monad. *)

From stdpp Require Import base option list gmap strings.
From Stdlib Require Import ZArith Lia.

Local Open Scope Z_scope.
Local Open Scope string_scope.
Local Open Scope list_scope.

(** ** Data model *)

(** Modelled from the spec: [Topic.STATUS_CHOICES] is declared with the Topic
    model, outside this module; the spec names the enumeration "normal,
    locked, moved". *)
Inductive Status : Type :=
| topic_unlocked
| topic_locked
| topic_moved.

#[global] Instance Status_eq_dec : EqDecision Status.
Proof. solve_decision. Defined.

(** A column this module never reads or writes, kept as (name, value). *)
Definition Columns : Type := list (string * string).

(** A row of the forum table (the key of the table is the primary key). *)
Record ForumRow : Type := mkForumRow {
  row_forum_slug : string;
  row_forum_cols : Columns;
}.

(** A row of the topic table; [row_topic_forum_id] is the foreign key. *)
Record TopicRow : Type := mkTopicRow {
  row_topic_slug : string;
  row_topic_status : Status;
  row_topic_forum_id : Z;
  row_topic_cols : Columns;
}.

(** A [Forum] instance in memory. *)
Record Forum : Type := mkForum {
  forum_pk : Z;
  forum_slug : string;
  forum_cols : Columns;
}.

(** A [Topic] instance in memory.  [topic_forum_cache] is the cache of the
    foreign-key descriptor: the address of the [Forum] instance that
    [topic.forum] evaluates to once it has been loaded or assigned. *)
Record Topic : Type := mkTopic {
  topic_pk : Z;
  topic_slug : string;
  topic_status : Status;
  topic_forum_id : Z;
  topic_cols : Columns;
  topic_forum_cache : option nat;
}.

#[global] Instance ForumRow_eq_dec : EqDecision ForumRow.
Proof. solve_decision. Defined.
#[global] Instance TopicRow_eq_dec : EqDecision TopicRow.
Proof. solve_decision. Defined.
#[global] Instance Forum_eq_dec : EqDecision Forum.
Proof. solve_decision. Defined.
#[global] Instance Topic_eq_dec : EqDecision Topic.
Proof. solve_decision. Defined.

Definition forum_of_row (pk : Z) (r : ForumRow) : Forum :=
  mkForum pk (row_forum_slug r) (row_forum_cols r).

Definition row_of_forum (f : Forum) : ForumRow :=
  mkForumRow (forum_slug f) (forum_cols f).

Definition topic_of_row (pk : Z) (r : TopicRow) : Topic :=
  mkTopic pk (row_topic_slug r) (row_topic_status r) (row_topic_forum_id r)
          (row_topic_cols r) None.

Definition row_of_topic (t : Topic) : TopicRow :=
  mkTopicRow (topic_slug t) (topic_status t) (topic_forum_id t) (topic_cols t).

(** ** Requests, URLs and responses *)

Record User : Type := mkUser {
  user_pk : Z;
}.

(** The injected permission handler, [request.forum_permission_handler]:
    one predicate per capability, each taking the forum and the user. *)
Record PermissionHandler : Type := mkPermissionHandler {
  can_close_topics : Forum → User → bool;
  can_delete_topics : Forum → User → bool;
  can_move_topics : Forum → User → bool;
}.

Inductive Capability : Type :=
| CanCloseTopics
| CanDeleteTopics
| CanMoveTopics.

Record Request : Type := mkRequest {
  request_user : User;
  forum_permission_handler : PermissionHandler;
}.

(** The immutable part of a view instance: [self.request] and the primary
    key captured from the URL, [self.kwargs['pk']].  The attribute
    [self.object] is assigned by the views and lives in the state. *)
Record View : Type := mkView {
  request : Request;
  kwargs_pk : Z;
}.

(** A keyword argument handed to [reverse]. *)
Inductive UrlArg : Type :=
| ArgStr (s : string)
| ArgInt (z : Z).

(** [reverse(viewname, kwargs=...)]: the URL patterns belong to the routing
    configuration, so a URL is kept as the route name with its keyword
    arguments, in the order the source writes them. *)
Record Url : Type := mkUrl {
  url_name : string;
  url_kwargs : list (string * UrlArg);
}.

Definition reverse (viewname : string) (kwargs : list (string * UrlArg)) : Url :=
  mkUrl viewname kwargs.

(** A template context entry: the address of a model instance, or the form. *)
Inductive ContextValue : Type :=
| CtxTopic (o : nat)
| CtxForum (fo : nat)
| CtxForm
| CtxView.

Definition ContextData : Type := list (string * ContextValue).

Inductive Response : Type :=
| HttpResponseRedirect (url : Url)
| TemplateResponse (template_name : string) (context : ContextData).

(** The bound [TopicMoveForm] as the view sees it: [is_valid()] and
    [cleaned_data], whose ['forum'] entry is a [Forum] instance (held by
    address) and whose ['lock_topic'] entry is a boolean. *)
Record Form : Type := mkForm {
  is_valid : bool;
  cleaned_data_forum : nat;
  cleaned_data_lock_topic : bool;
}.

(** A keyword argument of the form's constructor: the topic instance (by
    address), the user, or an entry supplied by the base class. *)
Inductive FormKwarg : Type :=
| KwTopic (o : nat)
| KwUser (u : User)
| KwBase (v : string).

Inductive Exception : Type :=
| Http404
| PermissionDenied
| DoesNotExist
| AttributeError.

(** Observable effects, oldest first. *)
Inductive Effect : Type :=
| MessageSuccess (msg : string)
| TopicSaved (t : Topic)
| ForumSaved (f : Forum)
| TopicDeleted (t : Topic)
| PermissionQuery (cap : Capability) (f : Forum) (u : User).

(** ** State *)

Record State : Type := mkState {
  db_topics : gmap Z TopicRow;
  db_forums : gmap Z ForumRow;
  topic_objs : list Topic;
  forum_objs : list Forum;
  view_object : option nat;
  effects : list Effect;
}.

Definition with_db_topics (m : gmap Z TopicRow) (σ : State) : State :=
  mkState m (db_forums σ) (topic_objs σ) (forum_objs σ) (view_object σ) (effects σ).
Definition with_db_forums (m : gmap Z ForumRow) (σ : State) : State :=
  mkState (db_topics σ) m (topic_objs σ) (forum_objs σ) (view_object σ) (effects σ).
Definition with_topic_objs (l : list Topic) (σ : State) : State :=
  mkState (db_topics σ) (db_forums σ) l (forum_objs σ) (view_object σ) (effects σ).
Definition with_forum_objs (l : list Forum) (σ : State) : State :=
  mkState (db_topics σ) (db_forums σ) (topic_objs σ) l (view_object σ) (effects σ).
Definition with_view_object (o : option nat) (σ : State) : State :=
  mkState (db_topics σ) (db_forums σ) (topic_objs σ) (forum_objs σ) o (effects σ).
Definition with_effects (l : list Effect) (σ : State) : State :=
  mkState (db_topics σ) (db_forums σ) (topic_objs σ) (forum_objs σ) (view_object σ) l.

(** ** The monad of view code: state and exceptions *)

Inductive Result (A : Type) : Type :=
| Ok (a : A)
| Raise (e : Exception).
Arguments Ok {A} a.
Arguments Raise {A} e.

Definition M (A : Type) : Type := State → Result A * State.

#[global] Instance M_ret : MRet M := λ A a σ, (Ok a, σ).
#[global] Instance M_bind : MBind M := λ A B f m σ,
  match m σ with
  | (Ok a, σ') => f a σ'
  | (Raise e, σ') => (Raise e, σ')
  end.

Definition raise {A : Type} (e : Exception) : M A := λ σ, (Raise e, σ).
Definition modify (f : State → State) : M unit := λ σ, (Ok tt, f σ).
Definition emit (e : Effect) : M unit :=
  modify (λ σ, with_effects (effects σ ++ [e]) σ).

(** [try: m except e: h], for one exception class. *)
Definition try_except {A : Type} (m : M A) (e : Exception) (h : M A) : M A := λ σ,
  match m σ with
  | (Raise e', σ') =>
      match e, e' with
      | Http404, Http404 | PermissionDenied, PermissionDenied
      | DoesNotExist, DoesNotExist | AttributeError, AttributeError => h σ'
      | _, _ => (Raise e', σ')
      end
  | r => r
  end.

(** ** The object-relational layer

    The Topic and Forum models and their managers are declared outside this
    module; the spec describes them as "a Topic/Forum persistence API
    (fetch-by-key, save, delete)". *)

(** Modelled from the spec: [Topic.objects.get(pk=pk)], the fetch-by-key of
    the persistence API.  It builds a new instance from the stored row. *)
Definition Topic_objects_get (pk : Z) : M nat := λ σ,
  match db_topics σ !! pk with
  | Some r =>
      (Ok (length (topic_objs σ)),
       with_topic_objs (topic_objs σ ++ [topic_of_row pk r]) σ)
  | None => (Raise DoesNotExist, σ)
  end.

(** Modelled from the spec: [Forum.objects.get(pk=pk)], the fetch-by-key of
    the persistence API. *)
Definition Forum_objects_get (pk : Z) : M nat := λ σ,
  match db_forums σ !! pk with
  | Some r =>
      (Ok (length (forum_objs σ)),
       with_forum_objs (forum_objs σ ++ [forum_of_row pk r]) σ)
  | None => (Raise DoesNotExist, σ)
  end.

(** Reading the fields of the instance at an address. *)
Definition topic_attr (o : nat) : M Topic := λ σ,
  match topic_objs σ !! o with
  | Some t => (Ok t, σ)
  | None => (Raise AttributeError, σ)
  end.

Definition forum_attr (o : nat) : M Forum := λ σ,
  match forum_objs σ !! o with
  | Some f => (Ok f, σ)
  | None => (Raise AttributeError, σ)
  end.

Definition topic_store (o : nat) (t : Topic) : M unit :=
  modify (λ σ, with_topic_objs (<[o := t]> (topic_objs σ)) σ).

(** [topic.forum]: the cached instance, loaded from the foreign key on first
    access. *)
Definition topic_forum (o : nat) : M nat :=
  t ← topic_attr o;
  match topic_forum_cache t with
  | Some fo => mret fo
  | None =>
      fo ← Forum_objects_get (topic_forum_id t);
      topic_store o (mkTopic (topic_pk t) (topic_slug t) (topic_status t)
                             (topic_forum_id t) (topic_cols t) (Some fo));;
      mret fo
  end.

(** [topic.forum = new_forum]: sets the foreign key and the cache. *)
Definition topic_set_forum (o : nat) (fo : nat) : M unit :=
  f ← forum_attr fo;
  t ← topic_attr o;
  topic_store o (mkTopic (topic_pk t) (topic_slug t) (topic_status t)
                         (forum_pk f) (topic_cols t) (Some fo)).

(** [topic.status = st]. *)
Definition topic_set_status (o : nat) (st : Status) : M unit :=
  t ← topic_attr o;
  topic_store o (mkTopic (topic_pk t) (topic_slug t) st
                         (topic_forum_id t) (topic_cols t) (topic_forum_cache t)).

(** Modelled from the spec: [Topic.save()], the save of the persistence API.
    It writes the columns of the instance to the row of its primary key. *)
Definition Topic_save (o : nat) : M unit :=
  t ← topic_attr o;
  modify (λ σ, with_db_topics (<[topic_pk t := row_of_topic t]> (db_topics σ)) σ);;
  emit (TopicSaved t).

(** Modelled from the spec: [Forum.save()], the save of the persistence API. *)
Definition Forum_save (fo : nat) : M unit :=
  f ← forum_attr fo;
  modify (λ σ, with_db_forums (<[forum_pk f := row_of_forum f]> (db_forums σ)) σ);;
  emit (ForumSaved f).

(** Modelled from the spec: [Topic.delete()], the delete of the persistence
    API.  It removes the row of the instance's primary key. *)
Definition Topic_delete (o : nat) : M unit :=
  t ← topic_attr o;
  modify (λ σ, with_db_topics (delete (topic_pk t) (db_topics σ)) σ);;
  emit (TopicDeleted t).

(** ** Framework pieces the views call *)

(** [messages.success(self.request, msg)]. *)
Definition messages_success (msg : string) : M unit :=
  emit (MessageSuccess msg).

(** [SingleObjectMixin.get_object] with [model = Topic]: the URL carries the
    primary key, the queryset is filtered by it, and a missing row is turned
    into [Http404]. *)
Definition get_object (self : View) : M nat :=
  try_except (Topic_objects_get (kwargs_pk self)) DoesNotExist (raise Http404).

(** [self.object], read and assigned. *)
Definition self_object : M nat := λ σ,
  match view_object σ with
  | Some o => (Ok o, σ)
  | None => (Raise AttributeError, σ)
  end.

Definition set_self_object (o : nat) : M unit :=
  modify (with_view_object (Some o)).

(** [self.object.forum.<field>] and [self.object.<field>]. *)
Definition self_object_forum {A : Type} (field : Forum → A) : M A :=
  o ← self_object;
  fo ← topic_forum o;
  f ← forum_attr fo;
  mret (field f).

Definition self_object_attr {A : Type} (field : Topic → A) : M A :=
  o ← self_object;
  t ← topic_attr o;
  mret (field t).

(** [SingleObjectMixin.get_context_data] on a view whose
    [context_object_name] is ['topic'], as the three views declare it: the
    instance in [self.object] under the keys "object" and "topic", then the
    keyword arguments, then the view itself, added by [ContextMixin].  The
    dictionary is kept in insertion order. *)
Definition SingleObjectMixin_get_context_data (kwargs : ContextData) : M ContextData :=
  o ← self_object;
  mret ([("object", CtxTopic o); ("topic", CtxTopic o)] ++ kwargs ++ [("view", CtxView)]).

(** A fresh view instance serves each request: it has no [object] yet. *)
Definition as_view {A : Type} (handler : M A) : M A := λ σ,
  handler (with_view_object None σ).

(** ** TopicLockView *)

Module TopicLockView.

Definition template_name : string := "forum_moderation/topic_lock.html".

Definition success_message : string :=
  "This topic has been locked successfully.".

(** [kwargs] stands for the context built by the base classes. *)
Definition get_context_data (self : View) (kwargs : ContextData) : M ContextData :=
  let context := kwargs in
  (* Append the forum associated with the topic being locked to the context *)
  topic ← get_object self;
  fo ← topic_forum topic;
  mret (context ++ [("forum", CtxForum fo)]).

Definition get_success_url (self : View) : M Url :=
  messages_success success_message;;
  forum_slug ← self_object_forum forum_slug;
  forum_pk ← self_object_forum forum_pk;
  slug ← self_object_attr topic_slug;
  pk ← self_object_attr topic_pk;
  mret (reverse "forum-conversation:topic"
          [("forum_slug", ArgStr forum_slug); ("forum_pk", ArgInt forum_pk);
           ("slug", ArgStr slug); ("pk", ArgInt pk)]).

Definition lock (self : View) : M Response :=
  o ← get_object self;
  set_self_object o;;
  success_url ← get_success_url self;
  o ← self_object;
  topic_set_status o topic_locked;;
  o ← self_object;
  Topic_save o;;
  mret (HttpResponseRedirect success_url).

Definition post (self : View) : M Response := lock self.

Definition get_controlled_object (self : View) : M nat :=
  o ← get_object self;
  topic_forum o.

Definition perform_permissions_check
    (self : View) (user : User) (obj : nat) (perms : list string) : M bool :=
  f ← forum_attr obj;
  emit (PermissionQuery CanCloseTopics f user);;
  mret (can_close_topics (forum_permission_handler (request self)) f user).

End TopicLockView.

(** ** TopicDeleteView *)

Module TopicDeleteView.

Definition template_name : string := "forum_moderation/topic_delete.html".

Definition success_message : string :=
  "This topic has been deleted successfully.".

(** [kwargs] stands for the context built by the base classes. *)
Definition get_context_data (self : View) (kwargs : ContextData) : M ContextData :=
  let context := kwargs in
  (* Append the forum associated with the topic being deleted to the context *)
  topic ← get_object self;
  fo ← topic_forum topic;
  mret (context ++ [("forum", CtxForum fo)]).

Definition get_success_url (self : View) : M Url :=
  messages_success success_message;;
  slug ← self_object_forum forum_slug;
  pk ← self_object_forum forum_pk;
  mret (reverse "forum:forum" [("slug", ArgStr slug); ("pk", ArgInt pk)]).

Definition delete (self : View) : M Response :=
  o ← get_object self;
  set_self_object o;;
  success_url ← get_success_url self;
  o ← self_object;
  Topic_delete o;;
  mret (HttpResponseRedirect success_url).

(** [DeleteView.post] calls [self.delete]. *)
Definition post (self : View) : M Response := delete self.

Definition get_controlled_object (self : View) : M nat :=
  o ← get_object self;
  topic_forum o.

Definition perform_permissions_check
    (self : View) (user : User) (obj : nat) (perms : list string) : M bool :=
  f ← forum_attr obj;
  emit (PermissionQuery CanDeleteTopics f user);;
  mret (can_delete_topics (forum_permission_handler (request self)) f user).

End TopicDeleteView.

(** ** TopicMoveView *)

Module TopicMoveView.

Definition template_name : string := "forum_moderation/topic_move.html".

Definition success_message : string :=
  "This topic has been moved successfully.".

(** [kwargs] stands for the context built by the base classes. *)
Definition get_context_data (self : View) (kwargs : ContextData) : M ContextData :=
  let context := kwargs in
  topic ← get_object self;
  fo ← topic_forum topic;
  mret (context ++ [("forum", CtxForum fo)]).

Definition get_success_url (self : View) : M Url :=
  forum_slug ← self_object_forum forum_slug;
  forum_pk ← self_object_forum forum_pk;
  slug ← self_object_attr topic_slug;
  pk ← self_object_attr topic_pk;
  mret (reverse "forum-conversation:topic"
          [("forum_slug", ArgStr forum_slug); ("forum_pk", ArgInt forum_pk);
           ("slug", ArgStr slug); ("pk", ArgInt pk)]).

Definition form_valid (self : View) (form : Form) : M Response :=
  (* Move the topic *)
  topic ← self_object;
  old_forum ← topic_forum topic;
  let new_forum := cleaned_data_forum form in
  topic_set_forum topic new_forum;;
  (* Eventually lock the topic *)
  (if cleaned_data_lock_topic form
   then topic_set_status topic topic_locked
   else topic_set_status topic topic_moved);;
  Topic_save topic;;
  Forum_save old_forum;;
  messages_success success_message;;
  success_url ← get_success_url self;
  mret (HttpResponseRedirect success_url).

(** [FormMixin.form_invalid]: the form is rendered again, with the context
    of the base classes extended by [get_context_data]. *)
Definition form_invalid (self : View) (form : Form) : M Response :=
  base ← SingleObjectMixin_get_context_data [("form", CtxForm)];
  context ← get_context_data self base;
  mret (TemplateResponse template_name context).

(** [post] assigns [self.object] and defers to [ProcessFormView.post],
    which branches on [form.is_valid()]. *)
Definition post (self : View) (form : Form) : M Response :=
  o ← get_object self;
  set_self_object o;;
  if is_valid form then form_valid self form else form_invalid self form.

Definition get_controlled_object (self : View) : M nat :=
  o ← get_object self;
  topic_forum o.

Definition perform_permissions_check
    (self : View) (user : User) (obj : nat) (perms : list string) : M bool :=
  f ← forum_attr obj;
  emit (PermissionQuery CanMoveTopics f user);;
  mret (can_move_topics (forum_permission_handler (request self)) f user).

(** [kwargs] stands for the dictionary built by [FormMixin.get_form_kwargs];
    [update] overwrites the two keys. *)
Definition get_form_kwargs (self : View) (kwargs : gmap string FormKwarg) :
    M (gmap string FormKwarg) :=
  topic ← self_object;
  let user := request_user (request self) in
  mret (<["user" := KwUser user]> (<["topic" := KwTopic topic]> kwargs)).

(** [get] assigns [self.object] and defers to [ProcessFormView.get], which
    builds the unbound form from [get_form_kwargs] and renders it. *)
Definition get (self : View) : M Response :=
  o ← get_object self;
  set_self_object o;;
  get_form_kwargs self ∅;;
  base ← SingleObjectMixin_get_context_data [("form", CtxForm)];
  context ← get_context_data self base;
  mret (TemplateResponse template_name context).

End TopicMoveView.

(** ** PermissionRequiredMixin *)

Module PermissionRequiredMixin.

(** What the mixin expects of the view it is mixed into. *)
Record Controlled : Type := mkControlled {
  get_controlled_object : View → M nat;
  perform_permissions_check : View → User → nat → list string → M bool;
}.

(** Modelled from the spec: the mixin is declared in
    [forum_permission.mixins], outside this module.  The spec says that
    each action's authorization check is "delegated to an externally
    supplied permission handler, parameterized by the acting user and the
    controlling Forum object" and that each action "refuses to proceed
    (delegates to a denial path)" when the handler answers false. *)
Definition check_permissions (V : Controlled) (self : View) : M unit :=
  obj ← get_controlled_object V self;
  let user := request_user (request self) in
  has_permissions ← perform_permissions_check V self user obj [];
  if has_permissions : bool then mret tt else raise PermissionDenied.

(** Modelled from the spec: the permission check runs before the handler
    of the request. *)
Definition dispatch {A : Type} (V : Controlled) (self : View) (handler : M A) : M A :=
  check_permissions V self;;
  handler.

End PermissionRequiredMixin.

Definition TopicLockView_controlled : PermissionRequiredMixin.Controlled :=
  PermissionRequiredMixin.mkControlled
    TopicLockView.get_controlled_object TopicLockView.perform_permissions_check.

Definition TopicDeleteView_controlled : PermissionRequiredMixin.Controlled :=
  PermissionRequiredMixin.mkControlled
    TopicDeleteView.get_controlled_object TopicDeleteView.perform_permissions_check.

Definition TopicMoveView_controlled : PermissionRequiredMixin.Controlled :=
  PermissionRequiredMixin.mkControlled
    TopicMoveView.get_controlled_object TopicMoveView.perform_permissions_check.

(** A POST request served by each view: fresh instance, permission check,
    then the action. *)
Definition lock_request (self : View) : M Response :=
  as_view (PermissionRequiredMixin.dispatch TopicLockView_controlled self
             (TopicLockView.post self)).

Definition delete_request (self : View) : M Response :=
  as_view (PermissionRequiredMixin.dispatch TopicDeleteView_controlled self
             (TopicDeleteView.post self)).

Definition move_request (self : View) (form : Form) : M Response :=
  as_view (PermissionRequiredMixin.dispatch TopicMoveView_controlled self
             (TopicMoveView.post self form)).

(** A GET request served by the move view. *)
Definition move_get_request (self : View) : M Response :=
  as_view (PermissionRequiredMixin.dispatch TopicMoveView_controlled self
             (TopicMoveView.get self)).

(** ** A small database to run the views on *)

Module Sample.

Definition forum_A : ForumRow := mkForumRow "announcements" [("name", "Announcements")].
Definition forum_B : ForumRow := mkForumRow "archive" [("name", "Archive")].
Definition topic_5 : TopicRow := mkTopicRow "hello" topic_unlocked 1 [("subject", "Hello")].
Definition topic_7 : TopicRow := mkTopicRow "old-news" topic_locked 1 [("subject", "Old news")].

Definition allow_all : PermissionHandler :=
  mkPermissionHandler (λ _ _, true) (λ _ _, true) (λ _ _, true).
Definition deny_all : PermissionHandler :=
  mkPermissionHandler (λ _ _, false) (λ _ _, false) (λ _ _, false).

Definition moderator : User := mkUser 42.

Definition view (h : PermissionHandler) (pk : Z) : View :=
  mkView (mkRequest moderator h) pk.

(** Forums A (pk 1) and B (pk 2); topics 5 and 7 in A; one [Forum]
    instance for B already in memory, as a bound form holds it. *)
Definition σ0 : State :=
  mkState (<[5 := topic_5]> (<[7 := topic_7]> ∅))
          (<[1 := forum_A]> (<[2 := forum_B]> ∅))
          [] [forum_of_row 2 forum_B] None [].

Definition to_B (lock_topic : bool) : Form := mkForm true 0%nat lock_topic.

End Sample.

(** ** The states the views reach

    Written out once, for a request on the topic stored in row [r] whose
    forum is stored in row [fr]. *)

Section Outcomes.

Variables (self : View) (σ : State) (r : TopicRow) (fr : ForumRow).

(** The [Forum] instance that [topic.forum] loads. *)
Definition loaded_forum : Forum := forum_of_row (row_topic_forum_id r) fr.

(** The [Topic] instance of the request, with status [st], foreign key
    [fid] and the descriptor cache at address [cache]. *)
Definition topic_instance (st : Status) (fid : Z) (cache : nat) : Topic :=
  mkTopic (kwargs_pk self) (row_topic_slug r) st fid (row_topic_cols r) (Some cache).

Definition after_lock : State :=
  let t := topic_instance topic_locked (row_topic_forum_id r) (length (forum_objs σ)) in
  mkState (<[kwargs_pk self := row_of_topic t]> (db_topics σ))
          (db_forums σ)
          (topic_objs σ ++ [t])
          (forum_objs σ ++ [loaded_forum])
          (Some (length (topic_objs σ)))
          (effects σ ++ [MessageSuccess TopicLockView.success_message; TopicSaved t]).

Definition after_delete : State :=
  let t := topic_instance (row_topic_status r) (row_topic_forum_id r)
                          (length (forum_objs σ)) in
  mkState (delete (kwargs_pk self) (db_topics σ))
          (db_forums σ)
          (topic_objs σ ++ [t])
          (forum_objs σ ++ [loaded_forum])
          (Some (length (topic_objs σ)))
          (effects σ ++ [MessageSuccess TopicDeleteView.success_message; TopicDeleted t]).

Definition after_move (form : Form) (B : Forum) : State :=
  let st := if cleaned_data_lock_topic form then topic_locked else topic_moved in
  let t := topic_instance st (forum_pk B) (cleaned_data_forum form) in
  mkState (<[kwargs_pk self := row_of_topic t]> (db_topics σ))
          (<[row_topic_forum_id r := row_of_forum loaded_forum]> (db_forums σ))
          (topic_objs σ ++ [t])
          (forum_objs σ ++ [loaded_forum])
          (Some (length (topic_objs σ)))
          (effects σ ++ [TopicSaved t; ForumSaved loaded_forum;
                         MessageSuccess TopicMoveView.success_message]).

(** After the permission check of a fresh view instance: the controlled
    forum has been loaded and the handler has been asked once. *)
Definition after_check (cap : Capability) : State :=
  let t := topic_instance (row_topic_status r) (row_topic_forum_id r)
                          (length (forum_objs σ)) in
  mkState (db_topics σ)
          (db_forums σ)
          (topic_objs σ ++ [t])
          (forum_objs σ ++ [loaded_forum])
          None
          (effects σ ++ [PermissionQuery cap loaded_forum (request_user (request self))]).

End Outcomes.

(** ** Invariant of the data model *)

(** The primary keys of the rows of the forum table that row [t] of the
    topic table references through its foreign key. *)
Definition referenced_forums (σ : State) (t : TopicRow) : list Z :=
  filter (λ fpk, fpk = row_topic_forum_id t) (map_to_list (db_forums σ)).*1.

(** Every stored topic references exactly one forum. *)
Definition one_forum_per_topic (σ : State) : Prop :=
  map_Forall (λ _ t, length (referenced_forums σ t) = 1%nat) (db_topics σ).

#[global] Instance one_forum_per_topic_dec (σ : State) :
  Decision (one_forum_per_topic σ).
Proof. unfold one_forum_per_topic. apply _. Defined.

(** The tables and the effects of [σ'] are those of [σ]. *)
Definition same_tables_and_effects (σ σ' : State) : Prop :=
  db_topics σ' = db_topics σ ∧ db_forums σ' = db_forums σ ∧ effects σ' = effects σ.

(** From [σ] to [σ'] no topic row other than the one of key [pk] has
    changed, no topic row has been created, and the forum table has the
    same keys. *)
Definition touches_only_topic (pk : Z) (σ σ' : State) : Prop :=
  (∀ pk', pk' ≠ pk → db_topics σ' !! pk' = db_topics σ !! pk') ∧
  dom (db_topics σ') ⊆ dom (db_topics σ) ∧
  dom (db_forums σ') = dom (db_forums σ).

(** Keyword arguments as a base class could hand them to
    [TopicMoveView.get_form_kwargs], to run it on. *)
Definition base_form_kwargs : gmap string FormKwarg :=
  <["topic" := KwBase "stale"]> (<["prefix" := KwBase "move"]> ∅).

(** ** Symbolic execution of the views *)

Lemma lookup_snoc {A : Type} (l : list A) (x : A) :
  (l ++ [x]) !! length l = Some x.
Proof. by rewrite list_lookup_middle. Qed.

Lemma insert_snoc {A : Type} (l : list A) (x y : A) :
  <[length l := y]> (l ++ [x]) = l ++ [y].
Proof. rewrite insert_app_r_alt by lia. by rewrite Nat.sub_diag. Qed.

Lemma lookup_grow {A : Type} (l : list A) (x y : A) (i : nat) :
  l !! i = Some y → (l ++ [x]) !! i = Some y.
Proof. apply lookup_app_l_Some. Qed.

Lemma row_of_forum_of_row (pk : Z) (fr : ForumRow) :
  row_of_forum (forum_of_row pk fr) = fr.
Proof. by destruct fr. Qed.

Lemma row_of_topic_of_row (pk : Z) (r : TopicRow) :
  row_of_topic (topic_of_row pk r) = r.
Proof. by destruct r. Qed.

Ltac unfold_views :=
  unfold TopicLockView_controlled, TopicDeleteView_controlled,
    TopicMoveView_controlled;
  cbn [PermissionRequiredMixin.get_controlled_object
       PermissionRequiredMixin.perform_permissions_check];
  unfold lock_request, delete_request, move_request, as_view,
    PermissionRequiredMixin.dispatch, PermissionRequiredMixin.check_permissions,
    TopicLockView.post, TopicLockView.lock, TopicLockView.get_success_url,
    TopicLockView.get_controlled_object, TopicLockView.perform_permissions_check,
    TopicDeleteView.post, TopicDeleteView.delete, TopicDeleteView.get_success_url,
    TopicDeleteView.get_controlled_object, TopicDeleteView.perform_permissions_check,
    TopicMoveView.post, TopicMoveView.form_valid, TopicMoveView.form_invalid,
    TopicMoveView.get_success_url, TopicMoveView.get_context_data,
    TopicMoveView.get_controlled_object, TopicMoveView.perform_permissions_check,
    self_object_forum, self_object_attr, get_object, try_except,
    messages_success, Topic_save, Forum_save, Topic_delete,
    topic_set_status, topic_set_forum, topic_forum, topic_store,
    topic_attr, forum_attr, Topic_objects_get, Forum_objects_get,
    self_object, set_self_object, emit, modify, raise,
    mbind, M_bind, mret, M_ret,
    with_db_topics, with_db_forums, with_topic_objs, with_forum_objs,
    with_view_object, with_effects.

Ltac exec_step :=
  match goal with
  | H : ?m !! ?k = Some _ |- context [?m !! ?k] => rewrite H
  | H : ?m !! ?k = None |- context [?m !! ?k] => rewrite H
  | |- context [(?l ++ [_]) !! length ?l] => rewrite lookup_snoc
  | |- context [<[length ?l := _]> (?l ++ [_])] => rewrite insert_snoc
  | H : ?l !! ?i = Some _ |- context [(?l ++ [_]) !! ?i] =>
      rewrite (lookup_grow l _ _ i H)
  end.

Ltac exec := do 2 (unfold_views; cbn); repeat (exec_step; cbn).

Section Runs.

Context (self : View) (σ : State) (r : TopicRow) (fr : ForumRow).
Hypothesis Htopic : db_topics σ !! kwargs_pk self = Some r.
Hypothesis Hforum : db_forums σ !! row_topic_forum_id r = Some fr.

Lemma lock_run :
  TopicLockView.lock self σ =
  (Ok (HttpResponseRedirect
         (reverse "forum-conversation:topic"
            [("forum_slug", ArgStr (row_forum_slug fr));
             ("forum_pk", ArgInt (row_topic_forum_id r));
             ("slug", ArgStr (row_topic_slug r));
             ("pk", ArgInt (kwargs_pk self))])),
   after_lock self σ r fr).
Proof. exec. by rewrite <- !app_assoc. Qed.

Lemma delete_run :
  TopicDeleteView.delete self σ =
  (Ok (HttpResponseRedirect
         (reverse "forum:forum"
            [("slug", ArgStr (row_forum_slug fr));
             ("pk", ArgInt (row_topic_forum_id r))])),
   after_delete self σ r fr).
Proof. exec. by rewrite <- !app_assoc. Qed.

Lemma move_run (form : Form) (B : Forum) :
  is_valid form = true →
  forum_objs σ !! cleaned_data_forum form = Some B →
  TopicMoveView.post self form σ =
  (Ok (HttpResponseRedirect
         (reverse "forum-conversation:topic"
            [("forum_slug", ArgStr (forum_slug B));
             ("forum_pk", ArgInt (forum_pk B));
             ("slug", ArgStr (row_topic_slug r));
             ("pk", ArgInt (kwargs_pk self))])),
   after_move self σ r fr form B).
Proof.
  intros Hvalid HB. exec. rewrite Hvalid. exec.
  unfold after_move.
  destruct (cleaned_data_lock_topic form); exec; by rewrite <- !app_assoc.
Qed.

(** The forum table is the same after a move: the row written back by
    [old_forum.save()] is the row that was loaded. *)
Lemma after_move_db_forums (form : Form) (B : Forum) :
  db_forums (after_move self σ r fr form B) = db_forums σ.
Proof.
  cbn. unfold loaded_forum. rewrite row_of_forum_of_row. by apply insert_id.
Qed.

Lemma check_lock_run :
  PermissionRequiredMixin.check_permissions TopicLockView_controlled self
    (with_view_object None σ) =
  ((if can_close_topics (forum_permission_handler (request self))
          (loaded_forum r fr) (request_user (request self))
    then Ok tt else Raise PermissionDenied),
   after_check self σ r fr CanCloseTopics).
Proof. exec. unfold after_check, loaded_forum. by destruct (can_close_topics _ _ _). Qed.

Lemma check_delete_run :
  PermissionRequiredMixin.check_permissions TopicDeleteView_controlled self
    (with_view_object None σ) =
  ((if can_delete_topics (forum_permission_handler (request self))
          (loaded_forum r fr) (request_user (request self))
    then Ok tt else Raise PermissionDenied),
   after_check self σ r fr CanDeleteTopics).
Proof. exec. unfold after_check, loaded_forum. by destruct (can_delete_topics _ _ _). Qed.

Lemma check_move_run :
  PermissionRequiredMixin.check_permissions TopicMoveView_controlled self
    (with_view_object None σ) =
  ((if can_move_topics (forum_permission_handler (request self))
          (loaded_forum r fr) (request_user (request self))
    then Ok tt else Raise PermissionDenied),
   after_check self σ r fr CanMoveTopics).
Proof. exec. unfold after_check, loaded_forum. by destruct (can_move_topics _ _ _). Qed.

End Runs.

(** ** The examples of the specification, run on the sample database *)

(** Topic(id=5, status=normal, forum=A) → lock() → Topic(id=5, status=locked,
    forum=A), redirect to the topic page of A. *)
Example lock_topic_5 :
  ∃ σ',
    lock_request (Sample.view Sample.allow_all 5) Sample.σ0 =
      (Ok (HttpResponseRedirect
             (reverse "forum-conversation:topic"
                [("forum_slug", ArgStr "announcements"); ("forum_pk", ArgInt 1);
                 ("slug", ArgStr "hello"); ("pk", ArgInt 5)])), σ') ∧
    db_topics σ' !! 5 =
      Some (mkTopicRow "hello" topic_locked 1 [("subject", "Hello")]).
Proof. eexists. split; vm_compute; reflexivity. Qed.

(** Topic(id=7, forum=A) → move(forum=B, lock_topic=true) → Topic(id=7,
    status=locked, forum=B); A is re-saved. *)
Example move_topic_7 :
  ∃ response σ',
    move_request (Sample.view Sample.allow_all 7) (Sample.to_B true) Sample.σ0 =
      (Ok response, σ') ∧
    db_topics σ' !! 7 =
      Some (mkTopicRow "old-news" topic_locked 2 [("subject", "Old news")]) ∧
    ForumSaved (forum_of_row 1 Sample.forum_A) ∈ effects σ'.
Proof.
  eexists _, _. split; [vm_compute; reflexivity|].
  split; [vm_compute; reflexivity|]. cbn. set_solver.
Qed.

(** A refused request changes nothing in the tables. *)
Example delete_topic_5_denied :
  ∃ σ',
    delete_request (Sample.view Sample.deny_all 5) Sample.σ0 =
      (Raise PermissionDenied, σ') ∧
    db_topics σ' = db_topics Sample.σ0.
Proof. eexists. split; vm_compute; reflexivity. Qed.

(** ** Properties of the views *)

(** C1. For a stored topic and a valid move form naming the target forum [B]
    and a lock flag, the move action succeeds, sets the forum reference of
    the topic (foreign key and cached instance) to [B] and sets its status
    to "locked" when the flag is set and to "moved" when it is not; the
    stored row carries the same forum reference and status. *)
Theorem move_sets_forum_and_status
    (self : View) (σ : State) (r : TopicRow) (fr : ForumRow) (form : Form) (B : Forum) :
  db_topics σ !! kwargs_pk self = Some r →
  db_forums σ !! row_topic_forum_id r = Some fr →
  is_valid form = true →
  forum_objs σ !! cleaned_data_forum form = Some B →
  ∃ response σ' o t,
    TopicMoveView.post self form σ = (Ok response, σ') ∧
    view_object σ' = Some o ∧
    topic_objs σ' !! o = Some t ∧
    topic_forum_id t = forum_pk B ∧
    topic_forum_cache t = Some (cleaned_data_forum form) ∧
    forum_objs σ' !! cleaned_data_forum form = Some B ∧
    topic_status t =
      (if cleaned_data_lock_topic form then topic_locked else topic_moved) ∧
    db_topics σ' !! kwargs_pk self =
      Some (mkTopicRow (row_topic_slug r)
              (if cleaned_data_lock_topic form then topic_locked else topic_moved)
              (forum_pk B) (row_topic_cols r)).
Proof.
  intros Ht Hf Hvalid HB.
  eexists _, _, _, _. split; [by eapply move_run|].
  cbn. rewrite lookup_snoc, lookup_insert_eq.
  repeat split; try done. by apply lookup_grow.
Qed.

Lemma move_sets_forum_and_status_witness :
  ∃ response σ' o t,
    TopicMoveView.post (Sample.view Sample.allow_all 7) (Sample.to_B true) Sample.σ0 =
      (Ok response, σ') ∧
    view_object σ' = Some o ∧
    topic_objs σ' !! o = Some t ∧
    topic_forum_id t = 2 ∧
    topic_forum_cache t = Some 0%nat ∧
    forum_objs σ' !! 0%nat = Some (forum_of_row 2 Sample.forum_B) ∧
    topic_status t = topic_locked ∧
    db_topics σ' !! 7 =
      Some (mkTopicRow "old-news" topic_locked 2 [("subject", "Old news")]).
Proof.
  apply (move_sets_forum_and_status (Sample.view Sample.allow_all 7) Sample.σ0
           Sample.topic_7 Sample.forum_A (Sample.to_B true)
           (forum_of_row 2 Sample.forum_B));
    vm_compute; reflexivity.
Defined.

(** C2. For a stored topic, the lock action succeeds, sets the status of the
    topic to "locked", saves the topic, leaves its forum reference and the
    forum table unchanged, and redirects to the topic page built from the
    slug and primary key of that forum and the slug and primary key of the
    topic. *)
Theorem lock_sets_status_and_redirects
    (self : View) (σ : State) (r : TopicRow) (fr : ForumRow) :
  db_topics σ !! kwargs_pk self = Some r →
  db_forums σ !! row_topic_forum_id r = Some fr →
  ∃ σ' o t,
    TopicLockView.lock self σ =
      (Ok (HttpResponseRedirect
             (reverse "forum-conversation:topic"
                [("forum_slug", ArgStr (row_forum_slug fr));
                 ("forum_pk", ArgInt (row_topic_forum_id r));
                 ("slug", ArgStr (row_topic_slug r));
                 ("pk", ArgInt (kwargs_pk self))])), σ') ∧
    view_object σ' = Some o ∧
    topic_objs σ' !! o = Some t ∧
    topic_status t = topic_locked ∧
    topic_forum_id t = row_topic_forum_id r ∧
    TopicSaved t ∈ effects σ' ∧
    db_topics σ' =
      <[kwargs_pk self := mkTopicRow (row_topic_slug r) topic_locked
                            (row_topic_forum_id r) (row_topic_cols r)]> (db_topics σ) ∧
    db_forums σ' = db_forums σ.
Proof.
  intros Ht Hf.
  eexists _, _, _. split; [by eapply lock_run|].
  cbn. rewrite lookup_snoc. repeat split; try done.
  set_solver.
Qed.

Lemma lock_sets_status_and_redirects_witness :
  ∃ σ' o t,
    TopicLockView.lock (Sample.view Sample.allow_all 5) Sample.σ0 =
      (Ok (HttpResponseRedirect
             (reverse "forum-conversation:topic"
                [("forum_slug", ArgStr "announcements"); ("forum_pk", ArgInt 1);
                 ("slug", ArgStr "hello"); ("pk", ArgInt 5)])), σ') ∧
    view_object σ' = Some o ∧
    topic_objs σ' !! o = Some t ∧
    topic_status t = topic_locked ∧
    topic_forum_id t = 1 ∧
    TopicSaved t ∈ effects σ' ∧
    db_topics σ' =
      <[5 := mkTopicRow "hello" topic_locked 1 [("subject", "Hello")]]>
        (db_topics Sample.σ0) ∧
    db_forums σ' = db_forums Sample.σ0.
Proof.
  apply (lock_sets_status_and_redirects (Sample.view Sample.allow_all 5) Sample.σ0
           Sample.topic_5 Sample.forum_A);
    vm_compute; reflexivity.
Defined.

(** C3. For a stored topic, the delete action succeeds, removes the row of
    the topic from the topic table (and no other row), emits the success
    notice, and redirects to the page of the forum the topic belonged to
    when the request came in, built from that forum's slug and primary
    key. *)
Theorem delete_removes_topic_and_redirects
    (self : View) (σ : State) (r : TopicRow) (fr : ForumRow) :
  db_topics σ !! kwargs_pk self = Some r →
  db_forums σ !! row_topic_forum_id r = Some fr →
  ∃ σ',
    TopicDeleteView.delete self σ =
      (Ok (HttpResponseRedirect
             (reverse "forum:forum"
                [("slug", ArgStr (row_forum_slug fr));
                 ("pk", ArgInt (row_topic_forum_id r))])), σ') ∧
    db_topics σ' !! kwargs_pk self = None ∧
    db_topics σ' = delete (kwargs_pk self) (db_topics σ) ∧
    db_forums σ' = db_forums σ ∧
    MessageSuccess TopicDeleteView.success_message ∈ effects σ'.
Proof.
  intros Ht Hf.
  eexists. split; [by eapply delete_run|].
  cbn. rewrite lookup_delete_eq. repeat split; try done.
  set_solver.
Qed.

Lemma delete_removes_topic_and_redirects_witness :
  ∃ σ',
    TopicDeleteView.delete (Sample.view Sample.allow_all 5) Sample.σ0 =
      (Ok (HttpResponseRedirect
             (reverse "forum:forum"
                [("slug", ArgStr "announcements"); ("pk", ArgInt 1)])), σ') ∧
    db_topics σ' !! 5 = None ∧
    db_topics σ' = delete 5 (db_topics Sample.σ0) ∧
    db_forums σ' = db_forums Sample.σ0 ∧
    MessageSuccess "This topic has been deleted successfully." ∈ effects σ'.
Proof.
  apply (delete_removes_topic_and_redirects (Sample.view Sample.allow_all 5) Sample.σ0
           Sample.topic_5 Sample.forum_A);
    vm_compute; reflexivity.
Defined.

(** C4. A request to lock, delete or move a stored topic first asks the
    injected permission handler, through the predicate of the action
    ([can_close_topics], [can_delete_topics], [can_move_topics]), about the
    forum the topic belongs to when the request comes in and the user of the
    request.  When the predicate answers false the request ends with
    [PermissionDenied], with both tables untouched and no other effect than
    the query; when it answers true the action runs.  For a move the forum
    asked about is therefore the original forum of the topic. *)
Theorem actions_ask_permission_handler
    (self : View) (σ : State) (r : TopicRow) (fr : ForumRow) (form : Form) :
  db_topics σ !! kwargs_pk self = Some r →
  db_forums σ !! row_topic_forum_id r = Some fr →
  (∃ σ1,
      effects σ1 =
        effects σ ++ [PermissionQuery CanCloseTopics
                        (forum_of_row (row_topic_forum_id r) fr)
                        (request_user (request self))] ∧
      db_topics σ1 = db_topics σ ∧ db_forums σ1 = db_forums σ ∧
      lock_request self σ =
        if can_close_topics (forum_permission_handler (request self))
             (forum_of_row (row_topic_forum_id r) fr) (request_user (request self))
        then TopicLockView.post self σ1
        else (Raise PermissionDenied, σ1)) ∧
  (∃ σ1,
      effects σ1 =
        effects σ ++ [PermissionQuery CanDeleteTopics
                        (forum_of_row (row_topic_forum_id r) fr)
                        (request_user (request self))] ∧
      db_topics σ1 = db_topics σ ∧ db_forums σ1 = db_forums σ ∧
      delete_request self σ =
        if can_delete_topics (forum_permission_handler (request self))
             (forum_of_row (row_topic_forum_id r) fr) (request_user (request self))
        then TopicDeleteView.post self σ1
        else (Raise PermissionDenied, σ1)) ∧
  (∃ σ1,
      effects σ1 =
        effects σ ++ [PermissionQuery CanMoveTopics
                        (forum_of_row (row_topic_forum_id r) fr)
                        (request_user (request self))] ∧
      db_topics σ1 = db_topics σ ∧ db_forums σ1 = db_forums σ ∧
      move_request self form σ =
        if can_move_topics (forum_permission_handler (request self))
             (forum_of_row (row_topic_forum_id r) fr) (request_user (request self))
        then TopicMoveView.post self form σ1
        else (Raise PermissionDenied, σ1)).
Proof.
  intros Ht Hf.
  split; [|split].
  - exists (after_check self σ r fr CanCloseTopics).
    do 3 (split; [done|]).
    unfold lock_request, as_view, PermissionRequiredMixin.dispatch.
    unfold mbind at 1, M_bind. rewrite (check_lock_run _ _ _ _ Ht Hf).
    unfold loaded_forum. by destruct (can_close_topics _ _ _).
  - exists (after_check self σ r fr CanDeleteTopics).
    do 3 (split; [done|]).
    unfold delete_request, as_view, PermissionRequiredMixin.dispatch.
    unfold mbind at 1, M_bind. rewrite (check_delete_run _ _ _ _ Ht Hf).
    unfold loaded_forum. by destruct (can_delete_topics _ _ _).
  - exists (after_check self σ r fr CanMoveTopics).
    do 3 (split; [done|]).
    unfold move_request, as_view, PermissionRequiredMixin.dispatch.
    unfold mbind at 1, M_bind. rewrite (check_move_run _ _ _ _ Ht Hf).
    unfold loaded_forum. by destruct (can_move_topics _ _ _).
Qed.

Lemma actions_ask_permission_handler_witness :
  (∃ σ1,
      effects σ1 =
        [PermissionQuery CanCloseTopics (forum_of_row 1 Sample.forum_A) Sample.moderator] ∧
      db_topics σ1 = db_topics Sample.σ0 ∧ db_forums σ1 = db_forums Sample.σ0 ∧
      lock_request (Sample.view Sample.deny_all 7) Sample.σ0 =
        (Raise PermissionDenied, σ1)) ∧
  (∃ σ1,
      effects σ1 =
        [PermissionQuery CanDeleteTopics (forum_of_row 1 Sample.forum_A) Sample.moderator] ∧
      db_topics σ1 = db_topics Sample.σ0 ∧ db_forums σ1 = db_forums Sample.σ0 ∧
      delete_request (Sample.view Sample.deny_all 7) Sample.σ0 =
        (Raise PermissionDenied, σ1)) ∧
  (∃ σ1,
      effects σ1 =
        [PermissionQuery CanMoveTopics (forum_of_row 1 Sample.forum_A) Sample.moderator] ∧
      db_topics σ1 = db_topics Sample.σ0 ∧ db_forums σ1 = db_forums Sample.σ0 ∧
      move_request (Sample.view Sample.deny_all 7) (Sample.to_B false) Sample.σ0 =
        (Raise PermissionDenied, σ1)).
Proof.
  apply (actions_ask_permission_handler (Sample.view Sample.deny_all 7) Sample.σ0
           Sample.topic_7 Sample.forum_A (Sample.to_B false));
    vm_compute; reflexivity.
Defined.

(** C5. A successful move saves the topic, with its new forum reference and
    status, then the original forum, the one the topic belonged to before
    the move, and nothing else: these two are the only persistence calls
    among its effects, every row of the topic table other than the topic's
    is left as it was, and so is every row of the forum table other than
    the original forum's. *)
Theorem move_saves_topic_and_original_forum
    (self : View) (σ : State) (r : TopicRow) (fr : ForumRow) (form : Form) (B : Forum) :
  db_topics σ !! kwargs_pk self = Some r →
  db_forums σ !! row_topic_forum_id r = Some fr →
  is_valid form = true →
  forum_objs σ !! cleaned_data_forum form = Some B →
  ∃ response σ' t,
    TopicMoveView.post self form σ = (Ok response, σ') ∧
    effects σ' =
      effects σ ++ [TopicSaved t;
                    ForumSaved (forum_of_row (row_topic_forum_id r) fr);
                    MessageSuccess TopicMoveView.success_message] ∧
    topic_pk t = kwargs_pk self ∧
    topic_forum_id t = forum_pk B ∧
    topic_status t =
      (if cleaned_data_lock_topic form then topic_locked else topic_moved) ∧
    db_topics σ' !! kwargs_pk self = Some (row_of_topic t) ∧
    (∀ pk, pk ≠ kwargs_pk self → db_topics σ' !! pk = db_topics σ !! pk) ∧
    (∀ fpk, fpk ≠ row_topic_forum_id r → db_forums σ' !! fpk = db_forums σ !! fpk).
Proof.
  intros Ht Hf Hvalid HB.
  eexists _, _, _. split; [by eapply move_run|].
  cbn. rewrite lookup_insert_eq. repeat split; try done.
  - intros pk Hpk. by rewrite lookup_insert_ne.
  - intros fpk Hfpk. by rewrite lookup_insert_ne.
Qed.

Lemma move_saves_topic_and_original_forum_witness :
  ∃ response σ' t,
    TopicMoveView.post (Sample.view Sample.allow_all 7) (Sample.to_B true) Sample.σ0 =
      (Ok response, σ') ∧
    effects σ' =
      [TopicSaved t; ForumSaved (forum_of_row 1 Sample.forum_A);
       MessageSuccess "This topic has been moved successfully."] ∧
    topic_pk t = 7 ∧
    topic_forum_id t = 2 ∧
    topic_status t = topic_locked ∧
    db_topics σ' !! 7 = Some (row_of_topic t) ∧
    (∀ pk, pk ≠ 7 → db_topics σ' !! pk = db_topics Sample.σ0 !! pk) ∧
    (∀ fpk, fpk ≠ 1 → db_forums σ' !! fpk = db_forums Sample.σ0 !! fpk).
Proof.
  apply (move_saves_topic_and_original_forum (Sample.view Sample.allow_all 7) Sample.σ0
           Sample.topic_7 Sample.forum_A (Sample.to_B true)
           (forum_of_row 2 Sample.forum_B));
    vm_compute; reflexivity.
Defined.

(** C6. A successful move to the target forum [B] redirects to the new
    location of the topic, the topic page built from the slug and primary
    key of [B] and the slug and primary key of the topic, and emits the
    success notice. *)
Theorem move_redirects_to_new_location
    (self : View) (σ : State) (r : TopicRow) (fr : ForumRow) (form : Form) (B : Forum) :
  db_topics σ !! kwargs_pk self = Some r →
  db_forums σ !! row_topic_forum_id r = Some fr →
  is_valid form = true →
  forum_objs σ !! cleaned_data_forum form = Some B →
  ∃ σ',
    TopicMoveView.post self form σ =
      (Ok (HttpResponseRedirect
             (reverse "forum-conversation:topic"
                [("forum_slug", ArgStr (forum_slug B));
                 ("forum_pk", ArgInt (forum_pk B));
                 ("slug", ArgStr (row_topic_slug r));
                 ("pk", ArgInt (kwargs_pk self))])), σ') ∧
    MessageSuccess TopicMoveView.success_message ∈ effects σ'.
Proof.
  intros Ht Hf Hvalid HB.
  eexists. split; [by eapply move_run|].
  cbn. set_solver.
Qed.

Lemma move_redirects_to_new_location_witness :
  ∃ σ',
    TopicMoveView.post (Sample.view Sample.allow_all 7) (Sample.to_B false) Sample.σ0 =
      (Ok (HttpResponseRedirect
             (reverse "forum-conversation:topic"
                [("forum_slug", ArgStr "archive"); ("forum_pk", ArgInt 2);
                 ("slug", ArgStr "old-news"); ("pk", ArgInt 7)])), σ') ∧
    MessageSuccess "This topic has been moved successfully." ∈ effects σ'.
Proof.
  apply (move_redirects_to_new_location (Sample.view Sample.allow_all 7) Sample.σ0
           Sample.topic_7 Sample.forum_A (Sample.to_B false)
           (forum_of_row 2 Sample.forum_B));
    vm_compute; reflexivity.
Defined.

(** *** Counting the forums a topic references *)

Lemma filter_eq_NoDup (l : list Z) (k : Z) :
  NoDup l → filter (λ x, x = k) l = if decide (k ∈ l) then [k] else [].
Proof.
  induction 1 as [|x l Hx Hl IH]; [done|].
  rewrite filter_cons, IH. destruct (decide (x = k)) as [->|Hne].
  - rewrite (decide_False (P := k ∈ l)) by done.
    rewrite decide_True; [done|]. apply elem_of_cons. by left.
  - destruct (decide (k ∈ l)) as [Hin|Hnin].
    + rewrite decide_True; [done|]. apply elem_of_cons. by right.
    + rewrite decide_False; [done|]. apply not_elem_of_cons. split; congruence.
Qed.

Lemma referenced_forums_lookup (σ : State) (t : TopicRow) :
  referenced_forums σ t =
  if db_forums σ !! row_topic_forum_id t is Some _
  then [row_topic_forum_id t] else [].
Proof.
  unfold referenced_forums.
  rewrite filter_eq_NoDup by apply NoDup_fst_map_to_list.
  destruct (db_forums σ !! row_topic_forum_id t) as [fr|] eqn:E.
  - rewrite decide_True; [done|].
    apply list_elem_of_fmap. exists (row_topic_forum_id t, fr). split; [done|].
    by apply elem_of_map_to_list.
  - rewrite decide_False; [done|].
    intros ([k fr] & Hk & Hin)%list_elem_of_fmap. cbn in Hk. subst k.
    apply elem_of_map_to_list in Hin. congruence.
Qed.

Lemma referenced_forums_one (σ : State) (t : TopicRow) :
  length (referenced_forums σ t) = 1%nat ↔
  is_Some (db_forums σ !! row_topic_forum_id t).
Proof.
  rewrite referenced_forums_lookup.
  destruct (db_forums σ !! row_topic_forum_id t); cbn; split; try done.
Qed.

Lemma referenced_forums_ext (σ σ' : State) (t : TopicRow) :
  db_forums σ' = db_forums σ → referenced_forums σ' t = referenced_forums σ t.
Proof. unfold referenced_forums. by intros ->. Qed.

Lemma one_forum_per_topic_insert (σ σ' : State) (pk : Z) (t : TopicRow) :
  db_forums σ' = db_forums σ →
  db_topics σ' = <[pk := t]> (db_topics σ) →
  is_Some (db_forums σ !! row_topic_forum_id t) →
  one_forum_per_topic σ → one_forum_per_topic σ'.
Proof.
  unfold one_forum_per_topic. intros Hf Ht Hsome Hinv. rewrite Ht.
  apply map_Forall_insert_2.
  - rewrite (referenced_forums_ext σ σ') by done. by apply referenced_forums_one.
  - intros i x Hix. rewrite (referenced_forums_ext σ σ') by done. by eapply Hinv.
Qed.

(** C7. Every stored topic references exactly one forum, and the lock and
    move actions keep it so.  On a database where it holds, the topic being
    acted upon references the one forum of its foreign key.  After a lock
    every topic still references exactly one forum and this topic the same
    one.  After a move with a valid form naming [B] the row of the topic
    carries the foreign key of [B] and no topic references two forums; when
    [B] is a stored forum, as a validated form has it, every topic again
    references exactly one forum and this topic references [B] alone. *)
Theorem lock_and_move_keep_one_forum_per_topic
    (self : View) (σ : State) (r : TopicRow) :
  one_forum_per_topic σ →
  db_topics σ !! kwargs_pk self = Some r →
  referenced_forums σ r = [row_topic_forum_id r] ∧
  (∃ response σ' r',
      TopicLockView.lock self σ = (Ok response, σ') ∧
      one_forum_per_topic σ' ∧
      db_topics σ' !! kwargs_pk self = Some r' ∧
      referenced_forums σ' r' = [row_topic_forum_id r]) ∧
  (∀ (form : Form) (B : Forum),
      is_valid form = true →
      forum_objs σ !! cleaned_data_forum form = Some B →
      ∃ response σ' r',
        TopicMoveView.post self form σ = (Ok response, σ') ∧
        db_topics σ' !! kwargs_pk self = Some r' ∧
        row_topic_forum_id r' = forum_pk B ∧
        (∀ pk t, db_topics σ' !! pk = Some t →
                 (length (referenced_forums σ' t) ≤ 1)%nat) ∧
        (is_Some (db_forums σ !! forum_pk B) →
         one_forum_per_topic σ' ∧ referenced_forums σ' r' = [forum_pk B])).
Proof.
  intros Hinv Ht.
  assert (Hone : length (referenced_forums σ r) = 1%nat) by (by eapply Hinv).
  apply referenced_forums_one in Hone as Hsome. destruct Hsome as [fr Hf].
  split; [by rewrite referenced_forums_lookup, Hf|].
  split.
  - eexists _, _, _. split; [by eapply lock_run|].
    split; [|split].
    + eapply (one_forum_per_topic_insert σ); [reflexivity|reflexivity| |done].
      cbn. by rewrite Hf.
    + cbn. apply lookup_insert_eq.
    + rewrite referenced_forums_lookup. cbn. by rewrite Hf.
  - intros form B Hvalid HB.
    eexists _, _, _. split; [by eapply move_run|].
    split; [cbn; apply lookup_insert_eq|].
    split; [reflexivity|].
    split.
    + intros pk t _. rewrite referenced_forums_lookup.
      destruct (db_forums _ !! row_topic_forum_id t); cbn; lia.
    + intros HBdb. split.
      * eapply (one_forum_per_topic_insert σ);
          [by apply after_move_db_forums|reflexivity| |done].
        done.
      * rewrite referenced_forums_lookup, after_move_db_forums by done. cbn.
        by destruct HBdb as [? ->].
Qed.

Lemma lock_and_move_keep_one_forum_per_topic_witness :
  referenced_forums Sample.σ0 Sample.topic_7 = [1] ∧
  (∃ response σ' r',
      TopicLockView.lock (Sample.view Sample.allow_all 7) Sample.σ0 = (Ok response, σ') ∧
      one_forum_per_topic σ' ∧
      db_topics σ' !! 7 = Some r' ∧
      referenced_forums σ' r' = [1]) ∧
  (∃ response σ' r',
      TopicMoveView.post (Sample.view Sample.allow_all 7) (Sample.to_B false) Sample.σ0 =
        (Ok response, σ') ∧
      db_topics σ' !! 7 = Some r' ∧
      row_topic_forum_id r' = 2 ∧
      (∀ pk t, db_topics σ' !! pk = Some t →
               (length (referenced_forums σ' t) ≤ 1)%nat) ∧
      one_forum_per_topic σ' ∧
      referenced_forums σ' r' = [2]).
Proof.
  destruct (lock_and_move_keep_one_forum_per_topic
              (Sample.view Sample.allow_all 7) Sample.σ0 Sample.topic_7)
    as (Hrefs & Hlock & Hmove).
  - apply (bool_decide_unpack _). vm_compute. exact I.
  - vm_compute. reflexivity.
  - split; [exact Hrefs|]. split; [exact Hlock|].
    destruct (Hmove (Sample.to_B false) (forum_of_row 2 Sample.forum_B))
      as (response & σ' & r' & Hpost & Hrow & Hfk & Hmost & Hstored).
    + vm_compute. reflexivity.
    + vm_compute. reflexivity.
    + destruct Hstored as [Hinv' HB].
      * exists Sample.forum_B. vm_compute. reflexivity.
      * exists response, σ', r'. repeat split; assumption.
Defined.

(** C8. The move action overwrites the status of the topic whatever it was:
    with the lock flag unset, the topic, in memory and in its stored row,
    ends with the status "moved"; in particular a topic that was "locked"
    is no longer locked after such a move. *)
Theorem move_without_lock_overwrites_status
    (self : View) (σ : State) (r : TopicRow) (fr : ForumRow) (form : Form) (B : Forum) :
  db_topics σ !! kwargs_pk self = Some r →
  db_forums σ !! row_topic_forum_id r = Some fr →
  is_valid form = true →
  forum_objs σ !! cleaned_data_forum form = Some B →
  cleaned_data_lock_topic form = false →
  ∃ response σ' o t r',
    TopicMoveView.post self form σ = (Ok response, σ') ∧
    view_object σ' = Some o ∧
    topic_objs σ' !! o = Some t ∧
    topic_status t = topic_moved ∧
    db_topics σ' !! kwargs_pk self = Some r' ∧
    row_topic_status r' = topic_moved ∧
    (row_topic_status r = topic_locked → row_topic_status r' ≠ row_topic_status r).
Proof.
  intros Ht Hf Hvalid HB Hlock.
  eexists _, _, _, _, _. split; [by eapply move_run|].
  cbn. rewrite lookup_snoc, lookup_insert_eq, Hlock.
  repeat split; try done. cbn. by intros ->.
Qed.

Lemma move_without_lock_overwrites_status_witness :
  row_topic_status Sample.topic_7 = topic_locked ∧
  ∃ response σ' o t r',
    TopicMoveView.post (Sample.view Sample.allow_all 7) (Sample.to_B false) Sample.σ0 =
      (Ok response, σ') ∧
    view_object σ' = Some o ∧
    topic_objs σ' !! o = Some t ∧
    topic_status t = topic_moved ∧
    db_topics σ' !! 7 = Some r' ∧
    row_topic_status r' = topic_moved ∧
    (topic_locked = topic_locked → row_topic_status r' ≠ topic_locked).
Proof.
  split; [reflexivity|].
  apply (move_without_lock_overwrites_status (Sample.view Sample.allow_all 7) Sample.σ0
           Sample.topic_7 Sample.forum_A (Sample.to_B false)
           (forum_of_row 2 Sample.forum_B));
    vm_compute; reflexivity.
Defined.

(** C9. Locking is idempotent: for a stored topic, a second lock request
    answers with the same redirect as the first and leaves both tables as
    the first lock left them; the topic instance of the second request has
    the same primary key, slug, status, forum reference and other columns as
    the instance of the first. *)
Theorem lock_twice_same_as_once
    (self : View) (σ : State) (r : TopicRow) (fr : ForumRow) :
  db_topics σ !! kwargs_pk self = Some r →
  db_forums σ !! row_topic_forum_id r = Some fr →
  ∃ response σ1 σ2 o1 t1 o2 t2,
    as_view (TopicLockView.post self) σ = (Ok response, σ1) ∧
    as_view (TopicLockView.post self) σ1 = (Ok response, σ2) ∧
    db_topics σ2 = db_topics σ1 ∧
    db_forums σ2 = db_forums σ1 ∧
    view_object σ1 = Some o1 ∧ topic_objs σ1 !! o1 = Some t1 ∧
    view_object σ2 = Some o2 ∧ topic_objs σ2 !! o2 = Some t2 ∧
    topic_pk t2 = topic_pk t1 ∧
    row_of_topic t2 = row_of_topic t1 ∧
    topic_status t1 = topic_locked.
Proof.
  intros Ht Hf.
  pose (σa := with_view_object None σ).
  pose (σ1 := after_lock self σa r fr).
  pose (r1 := mkTopicRow (row_topic_slug r) topic_locked (row_topic_forum_id r)
                (row_topic_cols r)).
  pose (σb := with_view_object None σ1).
  assert (Ht1 : db_topics σb !! kwargs_pk self = Some r1)
    by (cbn; apply lookup_insert_eq).
  assert (Hf1 : db_forums σb !! row_topic_forum_id r1 = Some fr) by (cbn; done).
  exists (HttpResponseRedirect
            (reverse "forum-conversation:topic"
               [("forum_slug", ArgStr (row_forum_slug fr));
                ("forum_pk", ArgInt (row_topic_forum_id r));
                ("slug", ArgStr (row_topic_slug r));
                ("pk", ArgInt (kwargs_pk self))])),
         σ1, (after_lock self σb r1 fr).
  eexists _, _, _, _.
  split; [exact (lock_run self σa r fr Ht Hf)|].
  split; [exact (lock_run self σb r1 fr Ht1 Hf1)|].
  cbn. rewrite !lookup_snoc.
  repeat split; try done.
  apply insert_insert_eq.
Qed.

Lemma lock_twice_same_as_once_witness :
  ∃ response σ1 σ2 o1 t1 o2 t2,
    as_view (TopicLockView.post (Sample.view Sample.allow_all 5)) Sample.σ0 =
      (Ok response, σ1) ∧
    as_view (TopicLockView.post (Sample.view Sample.allow_all 5)) σ1 =
      (Ok response, σ2) ∧
    db_topics σ2 = db_topics σ1 ∧
    db_forums σ2 = db_forums σ1 ∧
    view_object σ1 = Some o1 ∧ topic_objs σ1 !! o1 = Some t1 ∧
    view_object σ2 = Some o2 ∧ topic_objs σ2 !! o2 = Some t2 ∧
    topic_pk t2 = topic_pk t1 ∧
    row_of_topic t2 = row_of_topic t1 ∧
    topic_status t1 = topic_locked.
Proof.
  apply (lock_twice_same_as_once (Sample.view Sample.allow_all 5) Sample.σ0
           Sample.topic_5 Sample.forum_A);
    vm_compute; reflexivity.
Defined.

(** C10. In the delete action the success notice is emitted and the redirect
    URL is computed, from the forum of the topic, while the topic is still
    stored; the topic is removed afterwards, and the response carries the
    URL computed before the removal. *)
Theorem delete_computes_url_before_removal
    (self : View) (σ : State) (r : TopicRow) (fr : ForumRow) :
  db_topics σ !! kwargs_pk self = Some r →
  db_forums σ !! row_topic_forum_id r = Some fr →
  ∃ url σ1 σ' t,
    (o ← get_object self;
     set_self_object o;;
     TopicDeleteView.get_success_url self) σ = (Ok url, σ1) ∧
    url = reverse "forum:forum"
            [("slug", ArgStr (row_forum_slug fr));
             ("pk", ArgInt (row_topic_forum_id r))] ∧
    db_topics σ1 !! kwargs_pk self = Some r ∧
    effects σ1 = effects σ ++ [MessageSuccess TopicDeleteView.success_message] ∧
    (o ← self_object; Topic_delete o) σ1 = (Ok tt, σ') ∧
    TopicDeleteView.delete self σ = (Ok (HttpResponseRedirect url), σ') ∧
    db_topics σ' !! kwargs_pk self = None ∧
    effects σ' = effects σ1 ++ [TopicDeleted t].
Proof.
  intros Ht Hf.
  eexists _, _, (after_delete self σ r fr), _.
  split; [exec; reflexivity|].
  split; [done|]. split; [done|]. split; [done|].
  split; [exec; by rewrite <- app_assoc|].
  split; [by apply delete_run|].
  split; [cbn; apply lookup_delete_eq|].
  cbn. by rewrite <- app_assoc.
Qed.

Lemma delete_computes_url_before_removal_witness :
  ∃ url σ1 σ' t,
    (o ← get_object (Sample.view Sample.allow_all 5);
     set_self_object o;;
     TopicDeleteView.get_success_url (Sample.view Sample.allow_all 5)) Sample.σ0 =
      (Ok url, σ1) ∧
    url = reverse "forum:forum" [("slug", ArgStr "announcements"); ("pk", ArgInt 1)] ∧
    db_topics σ1 !! 5 = Some Sample.topic_5 ∧
    effects σ1 = [MessageSuccess "This topic has been deleted successfully."] ∧
    (o ← self_object; Topic_delete o) σ1 = (Ok tt, σ') ∧
    TopicDeleteView.delete (Sample.view Sample.allow_all 5) Sample.σ0 =
      (Ok (HttpResponseRedirect url), σ') ∧
    db_topics σ' !! 5 = None ∧
    effects σ' = effects σ1 ++ [TopicDeleted t].
Proof.
  apply (delete_computes_url_before_removal (Sample.view Sample.allow_all 5) Sample.σ0
           Sample.topic_5 Sample.forum_A);
    vm_compute; reflexivity.
Defined.

(** ** Further properties of the views *)

Ltac case_step :=
  match goal with
  | |- context [match ?m !! ?k with _ => _ end] => destruct (m !! k) eqn:?
  | |- context [if ?b then _ else _] => destruct b eqn:?
  end.

Ltac unfold_reads :=
  unfold move_get_request, TopicMoveView.get, TopicMoveView.get_form_kwargs,
    TopicLockView.get_context_data, TopicDeleteView.get_context_data.

Ltac exec_more :=
  unfold_reads;
  do 2 (unfold_views; unfold SingleObjectMixin_get_context_data; cbn);
  repeat (exec_step; cbn).

Ltac exec_cases :=
  unfold_reads;
  do 2 (unfold_views; unfold SingleObjectMixin_get_context_data; cbn);
  repeat (first [exec_step | case_step]; cbn).

(** X1. When no topic is stored under the primary key of the URL, the lock
    action, the delete action and both handlers of the move view raise
    [Http404] and leave the state exactly as it was: nothing is saved or
    deleted and no notice is emitted. *)
Theorem missing_topic_raises_404 (self : View) (σ : State) (form : Form) :
  db_topics σ !! kwargs_pk self = None →
  TopicLockView.lock self σ = (Raise Http404, σ) ∧
  TopicDeleteView.delete self σ = (Raise Http404, σ) ∧
  TopicMoveView.post self form σ = (Raise Http404, σ) ∧
  TopicMoveView.get self σ = (Raise Http404, σ).
Proof.
  intros Ht. repeat split; exec_more; reflexivity.
Qed.

Lemma missing_topic_raises_404_witness :
  TopicLockView.lock (Sample.view Sample.allow_all 9) Sample.σ0 =
    (Raise Http404, Sample.σ0) ∧
  TopicDeleteView.delete (Sample.view Sample.allow_all 9) Sample.σ0 =
    (Raise Http404, Sample.σ0) ∧
  TopicMoveView.post (Sample.view Sample.allow_all 9) (Sample.to_B true) Sample.σ0 =
    (Raise Http404, Sample.σ0) ∧
  TopicMoveView.get (Sample.view Sample.allow_all 9) Sample.σ0 =
    (Raise Http404, Sample.σ0).
Proof.
  apply (missing_topic_raises_404 (Sample.view Sample.allow_all 9) Sample.σ0
           (Sample.to_B true)).
  vm_compute. reflexivity.
Defined.

(** X2. A request for a topic that is not stored ends with [Http404] before
    the permission handler is asked anything: no query, no notice and no
    change of the tables, whatever the handler would have answered. *)
Theorem missing_topic_404_before_permission_query
    (self : View) (σ : State) (form : Form) :
  db_topics σ !! kwargs_pk self = None →
  lock_request self σ = (Raise Http404, with_view_object None σ) ∧
  delete_request self σ = (Raise Http404, with_view_object None σ) ∧
  move_request self form σ = (Raise Http404, with_view_object None σ) ∧
  move_get_request self σ = (Raise Http404, with_view_object None σ).
Proof.
  intros Ht. repeat split; exec_more; reflexivity.
Qed.

Lemma missing_topic_404_before_permission_query_witness :
  lock_request (Sample.view Sample.deny_all 9) Sample.σ0 =
    (Raise Http404, Sample.σ0) ∧
  delete_request (Sample.view Sample.deny_all 9) Sample.σ0 =
    (Raise Http404, Sample.σ0) ∧
  move_request (Sample.view Sample.deny_all 9) (Sample.to_B true) Sample.σ0 =
    (Raise Http404, Sample.σ0) ∧
  move_get_request (Sample.view Sample.deny_all 9) Sample.σ0 =
    (Raise Http404, Sample.σ0).
Proof.
  apply (missing_topic_404_before_permission_query
           (Sample.view Sample.deny_all 9) Sample.σ0 (Sample.to_B true)).
  vm_compute. reflexivity.
Defined.

(** X3. For a stored topic, [get_controlled_object] of each view returns a
    [Forum] instance built from the row of the forum the topic currently
    belongs to; it loads a topic instance of its own and leaves the tables,
    the effects and [self.object] as they were. *)
Theorem get_controlled_object_is_current_forum
    (self : View) (σ : State) (r : TopicRow) (fr : ForumRow) :
  db_topics σ !! kwargs_pk self = Some r →
  db_forums σ !! row_topic_forum_id r = Some fr →
  ∃ fo σ',
    TopicLockView.get_controlled_object self σ = (Ok fo, σ') ∧
    TopicDeleteView.get_controlled_object self σ = (Ok fo, σ') ∧
    TopicMoveView.get_controlled_object self σ = (Ok fo, σ') ∧
    forum_objs σ' !! fo = Some (forum_of_row (row_topic_forum_id r) fr) ∧
    db_topics σ' = db_topics σ ∧
    db_forums σ' = db_forums σ ∧
    effects σ' = effects σ ∧
    view_object σ' = view_object σ.
Proof.
  intros Ht Hf. eexists _, _.
  split; [exec; reflexivity|].
  split; [exec; reflexivity|].
  split; [exec; reflexivity|].
  cbn. rewrite lookup_snoc. done.
Qed.

Lemma get_controlled_object_is_current_forum_witness :
  ∃ fo σ',
    TopicLockView.get_controlled_object (Sample.view Sample.allow_all 5) Sample.σ0 =
      (Ok fo, σ') ∧
    TopicDeleteView.get_controlled_object (Sample.view Sample.allow_all 5) Sample.σ0 =
      (Ok fo, σ') ∧
    TopicMoveView.get_controlled_object (Sample.view Sample.allow_all 5) Sample.σ0 =
      (Ok fo, σ') ∧
    forum_objs σ' !! fo = Some (forum_of_row 1 Sample.forum_A) ∧
    db_topics σ' = db_topics Sample.σ0 ∧
    db_forums σ' = db_forums Sample.σ0 ∧
    effects σ' = effects Sample.σ0 ∧
    view_object σ' = view_object Sample.σ0.
Proof.
  apply (get_controlled_object_is_current_forum (Sample.view Sample.allow_all 5)
           Sample.σ0 Sample.topic_5 Sample.forum_A);
    vm_compute; reflexivity.
Defined.

(** X4. For a stored topic, a POST with an invalid form and a GET both render
    the move template.  The context holds the topic instance of
    [self.object] under "object" and "topic", the form, the view and, under
    "forum", an instance of the forum the topic belongs to; the topic is not
    moved, nothing is saved and no notice is emitted. *)
Theorem move_renders_form_without_moving
    (self : View) (σ : State) (r : TopicRow) (fr : ForumRow) (form : Form) :
  db_topics σ !! kwargs_pk self = Some r →
  db_forums σ !! row_topic_forum_id r = Some fr →
  is_valid form = false →
  ∃ o fo σ',
    TopicMoveView.post self form σ =
      (Ok (TemplateResponse "forum_moderation/topic_move.html"
             [("object", CtxTopic o); ("topic", CtxTopic o); ("form", CtxForm);
              ("view", CtxView); ("forum", CtxForum fo)]), σ') ∧
    TopicMoveView.get self σ =
      (Ok (TemplateResponse "forum_moderation/topic_move.html"
             [("object", CtxTopic o); ("topic", CtxTopic o); ("form", CtxForm);
              ("view", CtxView); ("forum", CtxForum fo)]), σ') ∧
    view_object σ' = Some o ∧
    topic_objs σ' !! o = Some (topic_of_row (kwargs_pk self) r) ∧
    forum_objs σ' !! fo = Some (forum_of_row (row_topic_forum_id r) fr) ∧
    db_topics σ' = db_topics σ ∧
    db_forums σ' = db_forums σ ∧
    effects σ' = effects σ.
Proof.
  intros Ht Hf Hvalid. eexists _, _, _.
  split; [exec_more; rewrite Hvalid; exec_more; reflexivity|].
  split; [exec_more; reflexivity|].
  cbn. rewrite lookup_snoc.
  split; [done|]. split; [|done].
  apply lookup_grow, lookup_snoc.
Qed.

Lemma move_renders_form_without_moving_witness :
  ∃ o fo σ',
    TopicMoveView.post (Sample.view Sample.allow_all 7) (mkForm false 0%nat true)
      Sample.σ0 =
      (Ok (TemplateResponse "forum_moderation/topic_move.html"
             [("object", CtxTopic o); ("topic", CtxTopic o); ("form", CtxForm);
              ("view", CtxView); ("forum", CtxForum fo)]), σ') ∧
    TopicMoveView.get (Sample.view Sample.allow_all 7) Sample.σ0 =
      (Ok (TemplateResponse "forum_moderation/topic_move.html"
             [("object", CtxTopic o); ("topic", CtxTopic o); ("form", CtxForm);
              ("view", CtxView); ("forum", CtxForum fo)]), σ') ∧
    view_object σ' = Some o ∧
    topic_objs σ' !! o = Some (topic_of_row 7 Sample.topic_7) ∧
    forum_objs σ' !! fo = Some (forum_of_row 1 Sample.forum_A) ∧
    db_topics σ' = db_topics Sample.σ0 ∧
    db_forums σ' = db_forums Sample.σ0 ∧
    effects σ' = effects Sample.σ0.
Proof.
  apply (move_renders_form_without_moving (Sample.view Sample.allow_all 7)
           Sample.σ0 Sample.topic_7 Sample.forum_A (mkForm false 0%nat true));
    vm_compute; reflexivity.
Defined.

(** *** What the views never change *)

(** X5. Whatever the state and the outcome, the code that only reads, which
    is [get_context_data] and [get_controlled_object] of the three views and
    the GET handler of the move view, alone or behind the permission check,
    leaves both tables as they were; the view methods among them emit no
    effect either. *)
Theorem reading_code_changes_nothing
    (self : View) (σ : State) (kwargs : ContextData) :
  same_tables_and_effects σ (TopicLockView.get_context_data self kwargs σ).2 ∧
  same_tables_and_effects σ (TopicDeleteView.get_context_data self kwargs σ).2 ∧
  same_tables_and_effects σ (TopicMoveView.get_context_data self kwargs σ).2 ∧
  same_tables_and_effects σ (TopicLockView.get_controlled_object self σ).2 ∧
  same_tables_and_effects σ (TopicDeleteView.get_controlled_object self σ).2 ∧
  same_tables_and_effects σ (TopicMoveView.get_controlled_object self σ).2 ∧
  same_tables_and_effects σ (TopicMoveView.get self σ).2 ∧
  db_topics (move_get_request self σ).2 = db_topics σ ∧
  db_forums (move_get_request self σ).2 = db_forums σ.
Proof.
  unfold same_tables_and_effects.
  repeat split; exec_cases; reflexivity.
Qed.

Lemma lock_request_tables (self : View) (σ : State) :
  db_forums (lock_request self σ).2 = db_forums σ ∧
  (db_topics (lock_request self σ).2 = db_topics σ ∨
   ∃ r, db_topics σ !! kwargs_pk self = Some r ∧
        is_Some (db_forums σ !! row_topic_forum_id r) ∧
        db_topics (lock_request self σ).2 =
          <[kwargs_pk self := mkTopicRow (row_topic_slug r) topic_locked
                                (row_topic_forum_id r) (row_topic_cols r)]>
            (db_topics σ)).
Proof.
  exec_cases; (split; [reflexivity|]); try (by left).
  right. eexists. split; [reflexivity|]. split; [by eexists|]. reflexivity.
Qed.

Lemma delete_request_tables (self : View) (σ : State) :
  db_forums (delete_request self σ).2 = db_forums σ ∧
  (db_topics (delete_request self σ).2 = db_topics σ ∨
   db_topics (delete_request self σ).2 = delete (kwargs_pk self) (db_topics σ)).
Proof.
  exec_cases; (split; [reflexivity|]); try (by left); by right.
Qed.

Lemma move_request_tables (self : View) (form : Form) (σ : State) :
  db_forums (move_request self form σ).2 = db_forums σ ∧
  (db_topics (move_request self form σ).2 = db_topics σ ∨
   ∃ r r', db_topics σ !! kwargs_pk self = Some r ∧
           db_topics (move_request self form σ).2 =
             <[kwargs_pk self := r']> (db_topics σ)).
Proof.
  exec_cases;
    (split; [first [reflexivity
                   | by rewrite row_of_forum_of_row; apply insert_id]|]);
    try (by left).
  all: right; eexists _, _; split; reflexivity.
Qed.

Lemma move_get_request_tables (self : View) (σ : State) :
  db_forums (move_get_request self σ).2 = db_forums σ ∧
  db_topics (move_get_request self σ).2 = db_topics σ.
Proof. split; exec_cases; reflexivity. Qed.

Lemma touches_only_topic_refl (pk : Z) (σ σ' : State) :
  db_forums σ' = db_forums σ → db_topics σ' = db_topics σ →
  touches_only_topic pk σ σ'.
Proof. intros Hf Ht. unfold touches_only_topic. by rewrite Hf, Ht. Qed.

Lemma touches_only_topic_insert (pk : Z) (r' : TopicRow) (σ σ' : State) :
  db_forums σ' = db_forums σ →
  is_Some (db_topics σ !! pk) →
  db_topics σ' = <[pk := r']> (db_topics σ) →
  touches_only_topic pk σ σ'.
Proof.
  intros Hf Hsome Ht. unfold touches_only_topic. rewrite Hf, Ht.
  split; [|split; [|done]].
  - intros pk' Hne. by rewrite lookup_insert_ne.
  - rewrite dom_insert_L. apply union_least; [|done].
    apply singleton_subseteq_l. by apply elem_of_dom.
Qed.

Lemma touches_only_topic_delete (pk : Z) (σ σ' : State) :
  db_forums σ' = db_forums σ →
  db_topics σ' = delete pk (db_topics σ) →
  touches_only_topic pk σ σ'.
Proof.
  intros Hf Ht. unfold touches_only_topic. rewrite Hf, Ht.
  split; [|split; [|done]].
  - intros pk' Hne. by rewrite lookup_delete_ne.
  - rewrite dom_delete_L. apply subseteq_difference_l. done.
Qed.

(** X6. Whatever the state, the form, the answer of the permission handler
    and the outcome, a lock, delete or move request changes no topic row
    other than the one named in the URL, creates no topic row, and neither
    adds a forum to the forum table nor removes one. *)
Theorem requests_touch_only_their_topic
    (self : View) (form : Form) (σ : State) :
  touches_only_topic (kwargs_pk self) σ (lock_request self σ).2 ∧
  touches_only_topic (kwargs_pk self) σ (delete_request self σ).2 ∧
  touches_only_topic (kwargs_pk self) σ (move_request self form σ).2.
Proof.
  split; [|split].
  - destruct (lock_request_tables self σ) as [Hf [Ht|(r & Hr & _ & Ht)]].
    + by apply touches_only_topic_refl.
    + eapply touches_only_topic_insert; [done| |done]. by rewrite Hr.
  - destruct (delete_request_tables self σ) as [Hf [Ht|Ht]].
    + by apply touches_only_topic_refl.
    + by apply touches_only_topic_delete.
  - destruct (move_request_tables self form σ) as [Hf [Ht|(r & r' & Hr & Ht)]].
    + by apply touches_only_topic_refl.
    + eapply touches_only_topic_insert; [done| |done]. by rewrite Hr.
Qed.

(** X7. On a database where every stored topic references exactly one forum,
    a lock request, a delete request and a GET of the move view keep it so,
    whatever their outcome. *)
Theorem requests_keep_one_forum_per_topic (self : View) (σ : State) :
  one_forum_per_topic σ →
  one_forum_per_topic (lock_request self σ).2 ∧
  one_forum_per_topic (delete_request self σ).2 ∧
  one_forum_per_topic (move_get_request self σ).2.
Proof.
  intros Hinv.
  assert (Hsame : ∀ σ', db_forums σ' = db_forums σ → db_topics σ' = db_topics σ →
                        one_forum_per_topic σ').
  { intros σ' Hf Ht. unfold one_forum_per_topic. rewrite Ht.
    intros i x Hix. rewrite (referenced_forums_ext σ σ') by done. by eapply Hinv. }
  split; [|split].
  - destruct (lock_request_tables self σ) as [Hf [Ht|(r & Hr & Hsome & Ht)]].
    + by apply Hsame.
    + by eapply (one_forum_per_topic_insert σ).
  - destruct (delete_request_tables self σ) as [Hf [Ht|Ht]].
    + by apply Hsame.
    + unfold one_forum_per_topic. rewrite Ht. apply map_Forall_delete.
      intros i x Hix. rewrite (referenced_forums_ext σ _) by done. by eapply Hinv.
  - destruct (move_get_request_tables self σ) as [Hf Ht].
    by apply Hsame.
Qed.

Lemma requests_keep_one_forum_per_topic_witness :
  one_forum_per_topic (lock_request (Sample.view Sample.allow_all 5) Sample.σ0).2 ∧
  one_forum_per_topic (delete_request (Sample.view Sample.allow_all 5) Sample.σ0).2 ∧
  one_forum_per_topic (move_get_request (Sample.view Sample.allow_all 5) Sample.σ0).2.
Proof.
  apply (requests_keep_one_forum_per_topic (Sample.view Sample.allow_all 5) Sample.σ0).
  apply (bool_decide_unpack _). vm_compute. exact I.
Defined.

(** *** How the actions compose *)

(** X8. Once a topic has been deleted, every later action on the same
    primary key raises [Http404] and changes nothing: a second delete does
    not succeed again, and the topic can be neither locked nor moved. *)
Theorem deleted_topic_is_gone
    (self : View) (σ : State) (r : TopicRow) (fr : ForumRow) (form : Form) :
  db_topics σ !! kwargs_pk self = Some r →
  db_forums σ !! row_topic_forum_id r = Some fr →
  ∃ response σ1,
    TopicDeleteView.delete self σ = (Ok response, σ1) ∧
    TopicDeleteView.delete self σ1 = (Raise Http404, σ1) ∧
    TopicLockView.lock self σ1 = (Raise Http404, σ1) ∧
    TopicMoveView.post self form σ1 = (Raise Http404, σ1) ∧
    TopicMoveView.get self σ1 = (Raise Http404, σ1).
Proof.
  intros Ht Hf. eexists _, _. split; [by eapply delete_run|].
  assert (Hgone : delete (kwargs_pk self) (db_topics σ) !! kwargs_pk self = None)
    by apply lookup_delete_eq.
  unfold after_delete.
  repeat split; exec_more; reflexivity.
Qed.

Lemma deleted_topic_is_gone_witness :
  ∃ response σ1,
    TopicDeleteView.delete (Sample.view Sample.allow_all 5) Sample.σ0 =
      (Ok response, σ1) ∧
    TopicDeleteView.delete (Sample.view Sample.allow_all 5) σ1 = (Raise Http404, σ1) ∧
    TopicLockView.lock (Sample.view Sample.allow_all 5) σ1 = (Raise Http404, σ1) ∧
    TopicMoveView.post (Sample.view Sample.allow_all 5) (Sample.to_B true) σ1 =
      (Raise Http404, σ1) ∧
    TopicMoveView.get (Sample.view Sample.allow_all 5) σ1 = (Raise Http404, σ1).
Proof.
  apply (deleted_topic_is_gone (Sample.view Sample.allow_all 5) Sample.σ0
           Sample.topic_5 Sample.forum_A (Sample.to_B true));
    vm_compute; reflexivity.
Defined.

(** X9. Moving a stored topic to a stored forum [B] and then locking it
    leaves the topic table as a single move with the lock flag set leaves
    it: the row of the topic has the forum [B] and the status "locked".
    The lock redirects to the topic page under [B]. *)
Theorem move_then_lock_is_move_with_lock
    (self : View) (σ : State) (r : TopicRow) (fr frB : ForumRow)
    (form : Form) (B : Forum) :
  db_topics σ !! kwargs_pk self = Some r →
  db_forums σ !! row_topic_forum_id r = Some fr →
  is_valid form = true →
  forum_objs σ !! cleaned_data_forum form = Some B →
  db_forums σ !! forum_pk B = Some frB →
  ∃ response σ1 σ2,
    TopicMoveView.post self form σ = (Ok response, σ1) ∧
    TopicLockView.lock self σ1 =
      (Ok (HttpResponseRedirect
             (reverse "forum-conversation:topic"
                [("forum_slug", ArgStr (row_forum_slug frB));
                 ("forum_pk", ArgInt (forum_pk B));
                 ("slug", ArgStr (row_topic_slug r));
                 ("pk", ArgInt (kwargs_pk self))])), σ2) ∧
    db_topics σ2 !! kwargs_pk self =
      Some (mkTopicRow (row_topic_slug r) topic_locked (forum_pk B) (row_topic_cols r)) ∧
    db_topics σ2 =
      db_topics (TopicMoveView.post self (mkForm true (cleaned_data_forum form) true) σ).2.
Proof.
  intros Ht Hf Hvalid HB HfB.
  pose (σ1 := after_move self σ r fr form B).
  pose (r1 := mkTopicRow (row_topic_slug r)
                (if cleaned_data_lock_topic form then topic_locked else topic_moved)
                (forum_pk B) (row_topic_cols r)).
  assert (Ht1 : db_topics σ1 !! kwargs_pk self = Some r1)
    by (cbn; apply lookup_insert_eq).
  assert (Hf1 : db_forums σ1 !! row_topic_forum_id r1 = Some frB)
    by (unfold σ1; rewrite after_move_db_forums by done; exact HfB).
  exists (HttpResponseRedirect
            (reverse "forum-conversation:topic"
               [("forum_slug", ArgStr (forum_slug B));
                ("forum_pk", ArgInt (forum_pk B));
                ("slug", ArgStr (row_topic_slug r));
                ("pk", ArgInt (kwargs_pk self))])),
         σ1, (after_lock self σ1 r1 frB).
  split; [by apply move_run|].
  split; [exact (lock_run self σ1 r1 frB Ht1 Hf1)|].
  split; [cbn; apply lookup_insert_eq|].
  rewrite (move_run self σ r fr Ht Hf (mkForm true (cleaned_data_forum form) true) B)
    by done.
  cbn. apply insert_insert_eq.
Qed.

Lemma move_then_lock_is_move_with_lock_witness :
  ∃ response σ1 σ2,
    TopicMoveView.post (Sample.view Sample.allow_all 5) (Sample.to_B false) Sample.σ0 =
      (Ok response, σ1) ∧
    TopicLockView.lock (Sample.view Sample.allow_all 5) σ1 =
      (Ok (HttpResponseRedirect
             (reverse "forum-conversation:topic"
                [("forum_slug", ArgStr "archive"); ("forum_pk", ArgInt 2);
                 ("slug", ArgStr "hello"); ("pk", ArgInt 5)])), σ2) ∧
    db_topics σ2 !! 5 =
      Some (mkTopicRow "hello" topic_locked 2 [("subject", "Hello")]) ∧
    db_topics σ2 =
      db_topics (TopicMoveView.post (Sample.view Sample.allow_all 5)
                   (mkForm true 0%nat true) Sample.σ0).2.
Proof.
  apply (move_then_lock_is_move_with_lock (Sample.view Sample.allow_all 5) Sample.σ0
           Sample.topic_5 Sample.forum_A Sample.forum_B (Sample.to_B false)
           (forum_of_row 2 Sample.forum_B));
    vm_compute; reflexivity.
Defined.

(** X10. Of two moves in a row the last one wins: after a move to a stored
    forum [B1] and a move to [B2], the topic table is the original one with
    the row of the topic carrying the forum [B2] and the status set by the
    second form, so a move back to the original forum restores the forum
    reference but not the status.  The forum the second move saves again is
    [B1], the forum the topic was in when that move started. *)
Theorem second_move_wins
    (self : View) (σ : State) (r : TopicRow) (fr fr1 : ForumRow)
    (form1 form2 : Form) (B1 B2 : Forum) :
  db_topics σ !! kwargs_pk self = Some r →
  db_forums σ !! row_topic_forum_id r = Some fr →
  is_valid form1 = true →
  forum_objs σ !! cleaned_data_forum form1 = Some B1 →
  db_forums σ !! forum_pk B1 = Some fr1 →
  is_valid form2 = true →
  forum_objs σ !! cleaned_data_forum form2 = Some B2 →
  ∃ response σ1 σ2 t,
    TopicMoveView.post self form1 σ = (Ok response, σ1) ∧
    TopicMoveView.post self form2 σ1 =
      (Ok (HttpResponseRedirect
             (reverse "forum-conversation:topic"
                [("forum_slug", ArgStr (forum_slug B2));
                 ("forum_pk", ArgInt (forum_pk B2));
                 ("slug", ArgStr (row_topic_slug r));
                 ("pk", ArgInt (kwargs_pk self))])), σ2) ∧
    db_topics σ2 =
      <[kwargs_pk self :=
          mkTopicRow (row_topic_slug r)
            (if cleaned_data_lock_topic form2 then topic_locked else topic_moved)
            (forum_pk B2) (row_topic_cols r)]> (db_topics σ) ∧
    effects σ2 =
      effects σ1 ++ [TopicSaved t; ForumSaved (forum_of_row (forum_pk B1) fr1);
                     MessageSuccess TopicMoveView.success_message].
Proof.
  intros Ht Hf Hv1 HB1 Hf1 Hv2 HB2.
  pose (σ1 := after_move self σ r fr form1 B1).
  pose (r1 := mkTopicRow (row_topic_slug r)
                (if cleaned_data_lock_topic form1 then topic_locked else topic_moved)
                (forum_pk B1) (row_topic_cols r)).
  assert (Ht1 : db_topics σ1 !! kwargs_pk self = Some r1)
    by (cbn; apply lookup_insert_eq).
  assert (Hf1' : db_forums σ1 !! row_topic_forum_id r1 = Some fr1)
    by (unfold σ1; rewrite after_move_db_forums by done; exact Hf1).
  assert (HB2' : forum_objs σ1 !! cleaned_data_forum form2 = Some B2)
    by (cbn; by apply lookup_grow).
  eexists _, σ1, (after_move self σ1 r1 fr1 form2 B2), _.
  split; [by apply move_run|].
  split; [exact (move_run self σ1 r1 fr1 Ht1 Hf1' form2 B2 Hv2 HB2')|].
  split; [cbn; apply insert_insert_eq|].
  reflexivity.
Qed.

Lemma second_move_wins_witness :
  ∃ response σ1 σ2 t,
    TopicMoveView.post (Sample.view Sample.allow_all 5) (Sample.to_B true) Sample.σ0 =
      (Ok response, σ1) ∧
    TopicMoveView.post (Sample.view Sample.allow_all 5) (Sample.to_B false) σ1 =
      (Ok (HttpResponseRedirect
             (reverse "forum-conversation:topic"
                [("forum_slug", ArgStr "archive"); ("forum_pk", ArgInt 2);
                 ("slug", ArgStr "hello"); ("pk", ArgInt 5)])), σ2) ∧
    db_topics σ2 =
      <[5 := mkTopicRow "hello" topic_moved 2 [("subject", "Hello")]]>
        (db_topics Sample.σ0) ∧
    effects σ2 =
      effects σ1 ++ [TopicSaved t; ForumSaved (forum_of_row 2 Sample.forum_B);
                     MessageSuccess "This topic has been moved successfully."].
Proof.
  apply (second_move_wins (Sample.view Sample.allow_all 5) Sample.σ0
           Sample.topic_5 Sample.forum_A Sample.forum_B
           (Sample.to_B true) (Sample.to_B false)
           (forum_of_row 2 Sample.forum_B) (forum_of_row 2 Sample.forum_B));
    vm_compute; reflexivity.
Defined.

(** X11. For a stored topic, a lock or delete request the permission handler
    allows, and a move request it allows whose form is valid and holds its
    target forum instance, answers with the response of the action run on
    its own and leaves both tables as the action run on its own leaves
    them: the instances loaded by the permission check do not take part in
    the action. *)
Theorem allowed_request_acts_like_action
    (self : View) (σ : State) (r : TopicRow) (fr : ForumRow) :
  db_topics σ !! kwargs_pk self = Some r →
  db_forums σ !! row_topic_forum_id r = Some fr →
  (can_close_topics (forum_permission_handler (request self))
     (forum_of_row (row_topic_forum_id r) fr) (request_user (request self)) = true →
   (lock_request self σ).1 = (TopicLockView.lock self σ).1 ∧
   db_topics (lock_request self σ).2 = db_topics (TopicLockView.lock self σ).2 ∧
   db_forums (lock_request self σ).2 = db_forums (TopicLockView.lock self σ).2) ∧
  (can_delete_topics (forum_permission_handler (request self))
     (forum_of_row (row_topic_forum_id r) fr) (request_user (request self)) = true →
   (delete_request self σ).1 = (TopicDeleteView.delete self σ).1 ∧
   db_topics (delete_request self σ).2 = db_topics (TopicDeleteView.delete self σ).2 ∧
   db_forums (delete_request self σ).2 = db_forums (TopicDeleteView.delete self σ).2) ∧
  (∀ (form : Form) (B : Forum),
     is_valid form = true →
     forum_objs σ !! cleaned_data_forum form = Some B →
     can_move_topics (forum_permission_handler (request self))
       (forum_of_row (row_topic_forum_id r) fr) (request_user (request self)) = true →
     (move_request self form σ).1 = (TopicMoveView.post self form σ).1 ∧
     db_topics (move_request self form σ).2 =
       db_topics (TopicMoveView.post self form σ).2 ∧
     db_forums (move_request self form σ).2 =
       db_forums (TopicMoveView.post self form σ).2).
Proof.
  intros Ht Hf.
  split; [|split].
  - intros Hperm.
    assert (Hreq : lock_request self σ =
                   TopicLockView.lock self (after_check self σ r fr CanCloseTopics)).
    { unfold lock_request, as_view, PermissionRequiredMixin.dispatch.
      unfold mbind at 1, M_bind. rewrite (check_lock_run _ _ _ _ Ht Hf).
      unfold loaded_forum. by rewrite Hperm. }
    rewrite Hreq.
    rewrite (lock_run self (after_check self σ r fr CanCloseTopics) r fr) by done.
    by rewrite (lock_run self σ r fr).
  - intros Hperm.
    assert (Hreq : delete_request self σ =
                   TopicDeleteView.delete self (after_check self σ r fr CanDeleteTopics)).
    { unfold delete_request, as_view, PermissionRequiredMixin.dispatch.
      unfold mbind at 1, M_bind. rewrite (check_delete_run _ _ _ _ Ht Hf).
      unfold loaded_forum. by rewrite Hperm. }
    rewrite Hreq.
    rewrite (delete_run self (after_check self σ r fr CanDeleteTopics) r fr) by done.
    by rewrite (delete_run self σ r fr).
  - intros form B Hvalid HB Hperm.
    assert (HB' : forum_objs (after_check self σ r fr CanMoveTopics)
                    !! cleaned_data_forum form = Some B)
      by (cbn; by apply lookup_grow).
    assert (Hreq : move_request self form σ =
                   TopicMoveView.post self form (after_check self σ r fr CanMoveTopics)).
    { unfold move_request, as_view, PermissionRequiredMixin.dispatch.
      unfold mbind at 1, M_bind. rewrite (check_move_run _ _ _ _ Ht Hf).
      unfold loaded_forum. by rewrite Hperm. }
    rewrite Hreq.
    rewrite (move_run self (after_check self σ r fr CanMoveTopics) r fr Ht Hf form B)
      by done.
    by rewrite (move_run self σ r fr Ht Hf form B).
Qed.

Lemma allowed_request_acts_like_action_witness :
  ((lock_request (Sample.view Sample.allow_all 7) Sample.σ0).1 =
     (TopicLockView.lock (Sample.view Sample.allow_all 7) Sample.σ0).1 ∧
   db_topics (lock_request (Sample.view Sample.allow_all 7) Sample.σ0).2 =
     db_topics (TopicLockView.lock (Sample.view Sample.allow_all 7) Sample.σ0).2 ∧
   db_forums (lock_request (Sample.view Sample.allow_all 7) Sample.σ0).2 =
     db_forums (TopicLockView.lock (Sample.view Sample.allow_all 7) Sample.σ0).2) ∧
  ((delete_request (Sample.view Sample.allow_all 7) Sample.σ0).1 =
     (TopicDeleteView.delete (Sample.view Sample.allow_all 7) Sample.σ0).1 ∧
   db_topics (delete_request (Sample.view Sample.allow_all 7) Sample.σ0).2 =
     db_topics (TopicDeleteView.delete (Sample.view Sample.allow_all 7) Sample.σ0).2 ∧
   db_forums (delete_request (Sample.view Sample.allow_all 7) Sample.σ0).2 =
     db_forums (TopicDeleteView.delete (Sample.view Sample.allow_all 7) Sample.σ0).2) ∧
  ((move_request (Sample.view Sample.allow_all 7) (Sample.to_B true) Sample.σ0).1 =
     (TopicMoveView.post (Sample.view Sample.allow_all 7) (Sample.to_B true) Sample.σ0).1 ∧
   db_topics (move_request (Sample.view Sample.allow_all 7) (Sample.to_B true) Sample.σ0).2 =
     db_topics (TopicMoveView.post (Sample.view Sample.allow_all 7) (Sample.to_B true)
                  Sample.σ0).2 ∧
   db_forums (move_request (Sample.view Sample.allow_all 7) (Sample.to_B true) Sample.σ0).2 =
     db_forums (TopicMoveView.post (Sample.view Sample.allow_all 7) (Sample.to_B true)
                  Sample.σ0).2).
Proof.
  destruct (allowed_request_acts_like_action (Sample.view Sample.allow_all 7) Sample.σ0
              Sample.topic_7 Sample.forum_A)
    as (Hlock & Hdelete & Hmove); try (vm_compute; reflexivity).
  split; [apply Hlock; reflexivity|].
  split; [apply Hdelete; reflexivity|].
  apply (Hmove (Sample.to_B true) (forum_of_row 2 Sample.forum_B));
    vm_compute; reflexivity.
Defined.

(** X12. In the lock action the success notice is emitted and the redirect
    URL is computed before the topic is touched: at that point both tables
    are still as they were; the status change and the save come afterwards,
    and the save is the last effect. *)
Theorem lock_emits_notice_before_saving
    (self : View) (σ : State) (r : TopicRow) (fr : ForumRow) :
  db_topics σ !! kwargs_pk self = Some r →
  db_forums σ !! row_topic_forum_id r = Some fr →
  ∃ url σ1 σ' t,
    (o ← get_object self;
     set_self_object o;;
     TopicLockView.get_success_url self) σ = (Ok url, σ1) ∧
    db_topics σ1 = db_topics σ ∧
    db_forums σ1 = db_forums σ ∧
    effects σ1 = effects σ ++ [MessageSuccess TopicLockView.success_message] ∧
    (o ← self_object;
     topic_set_status o topic_locked;;
     o ← self_object;
     Topic_save o) σ1 = (Ok tt, σ') ∧
    TopicLockView.lock self σ = (Ok (HttpResponseRedirect url), σ') ∧
    effects σ' = effects σ1 ++ [TopicSaved t] ∧
    topic_status t = topic_locked.
Proof.
  intros Ht Hf.
  eexists _, _, (after_lock self σ r fr), _.
  split; [exec; reflexivity|].
  split; [done|]. split; [done|]. split; [done|].
  split; [exec; by rewrite <- app_assoc|].
  split; [by apply lock_run|].
  split; [cbn; by rewrite <- app_assoc|].
  done.
Qed.

Lemma lock_emits_notice_before_saving_witness :
  ∃ url σ1 σ' t,
    (o ← get_object (Sample.view Sample.allow_all 5);
     set_self_object o;;
     TopicLockView.get_success_url (Sample.view Sample.allow_all 5)) Sample.σ0 =
      (Ok url, σ1) ∧
    db_topics σ1 = db_topics Sample.σ0 ∧
    db_forums σ1 = db_forums Sample.σ0 ∧
    effects σ1 = [MessageSuccess "This topic has been locked successfully."] ∧
    (o ← self_object;
     topic_set_status o topic_locked;;
     o ← self_object;
     Topic_save o) σ1 = (Ok tt, σ') ∧
    TopicLockView.lock (Sample.view Sample.allow_all 5) Sample.σ0 =
      (Ok (HttpResponseRedirect url), σ') ∧
    effects σ' = effects σ1 ++ [TopicSaved t] ∧
    topic_status t = topic_locked.
Proof.
  apply (lock_emits_notice_before_saving (Sample.view Sample.allow_all 5) Sample.σ0
           Sample.topic_5 Sample.forum_A);
    vm_compute; reflexivity.
Defined.

(** X13. [get_form_kwargs] hands the form the topic instance held in
    [self.object] and the user of the request under the keys "topic" and
    "user", replacing whatever the base class had put there, and keeps
    every other entry; it changes nothing in the state.  On a view whose
    [object] has not been assigned it raises [AttributeError]. *)
Theorem get_form_kwargs_passes_topic_and_user
    (self : View) (σ : State) (kwargs : gmap string FormKwarg) (o : nat) :
  view_object σ = Some o →
  (∃ kw,
      TopicMoveView.get_form_kwargs self kwargs σ = (Ok kw, σ) ∧
      kw !! "topic" = Some (KwTopic o) ∧
      kw !! "user" = Some (KwUser (request_user (request self))) ∧
      ∀ k, k ≠ "topic" → k ≠ "user" → kw !! k = kwargs !! k) ∧
  as_view (TopicMoveView.get_form_kwargs self kwargs) σ =
    (Raise AttributeError, with_view_object None σ).
Proof.
  intros Ho. split; [|reflexivity].
  eexists. split.
  - unfold TopicMoveView.get_form_kwargs, self_object, mbind, M_bind, mret, M_ret.
    rewrite Ho. reflexivity.
  - split; [by rewrite lookup_insert_ne, lookup_insert_eq|].
    split; [by rewrite lookup_insert_eq|].
    intros k Ht Hu. by rewrite !lookup_insert_ne.
Qed.

Lemma get_form_kwargs_passes_topic_and_user_witness :
  (∃ kw,
      TopicMoveView.get_form_kwargs (Sample.view Sample.allow_all 5)
        base_form_kwargs
        (with_view_object (Some 3%nat) Sample.σ0) =
        (Ok kw, with_view_object (Some 3%nat) Sample.σ0) ∧
      kw !! "topic" = Some (KwTopic 3%nat) ∧
      kw !! "user" = Some (KwUser Sample.moderator) ∧
      ∀ k, k ≠ "topic" → k ≠ "user" →
           kw !! k = base_form_kwargs !! k) ∧
  as_view (TopicMoveView.get_form_kwargs (Sample.view Sample.allow_all 5)
             base_form_kwargs)
    (with_view_object (Some 3%nat) Sample.σ0) =
    (Raise AttributeError, Sample.σ0).
Proof.
  apply (get_form_kwargs_passes_topic_and_user (Sample.view Sample.allow_all 5)
           (with_view_object (Some 3%nat) Sample.σ0)
           base_form_kwargs 3%nat).
  reflexivity.
Defined.

(** X14. [get_success_url] is a plain reader in the move view only.  On a
    view whose [object] is a loaded topic with its forum in the descriptor
    cache, the move view returns the topic URL built from the cached forum
    instance and changes nothing, whereas the lock view returns the same URL
    and the delete view the forum URL while each emits its success notice,
    once per call. *)
Theorem get_success_url_emits_notice_except_for_move
    (self : View) (σ : State) (o fo : nat) (t : Topic) (f : Forum) :
  view_object σ = Some o →
  topic_objs σ !! o = Some t →
  topic_forum_cache t = Some fo →
  forum_objs σ !! fo = Some f →
  TopicMoveView.get_success_url self σ =
    (Ok (reverse "forum-conversation:topic"
           [("forum_slug", ArgStr (forum_slug f)); ("forum_pk", ArgInt (forum_pk f));
            ("slug", ArgStr (topic_slug t)); ("pk", ArgInt (topic_pk t))]), σ) ∧
  TopicLockView.get_success_url self σ =
    (Ok (reverse "forum-conversation:topic"
           [("forum_slug", ArgStr (forum_slug f)); ("forum_pk", ArgInt (forum_pk f));
            ("slug", ArgStr (topic_slug t)); ("pk", ArgInt (topic_pk t))]),
     with_effects (effects σ ++ [MessageSuccess TopicLockView.success_message]) σ) ∧
  TopicDeleteView.get_success_url self σ =
    (Ok (reverse "forum:forum"
           [("slug", ArgStr (forum_slug f)); ("pk", ArgInt (forum_pk f))]),
     with_effects (effects σ ++ [MessageSuccess TopicDeleteView.success_message]) σ).
Proof.
  intros Ho Ht Hc Hf.
  repeat split; exec;
    repeat (first [exec_step | rewrite Ho | rewrite Hc]; cbn); reflexivity.
Qed.

Lemma get_success_url_emits_notice_except_for_move_witness :
  TopicMoveView.get_success_url (Sample.view Sample.allow_all 5)
    (with_topic_objs [mkTopic 5 "hello" topic_unlocked 2 [] (Some 0%nat)]
       (with_view_object (Some 0%nat) Sample.σ0)) =
    (Ok (reverse "forum-conversation:topic"
           [("forum_slug", ArgStr "archive"); ("forum_pk", ArgInt 2);
            ("slug", ArgStr "hello"); ("pk", ArgInt 5)]),
     with_topic_objs [mkTopic 5 "hello" topic_unlocked 2 [] (Some 0%nat)]
       (with_view_object (Some 0%nat) Sample.σ0)) ∧
  TopicLockView.get_success_url (Sample.view Sample.allow_all 5)
    (with_topic_objs [mkTopic 5 "hello" topic_unlocked 2 [] (Some 0%nat)]
       (with_view_object (Some 0%nat) Sample.σ0)) =
    (Ok (reverse "forum-conversation:topic"
           [("forum_slug", ArgStr "archive"); ("forum_pk", ArgInt 2);
            ("slug", ArgStr "hello"); ("pk", ArgInt 5)]),
     with_effects [MessageSuccess "This topic has been locked successfully."]
       (with_topic_objs [mkTopic 5 "hello" topic_unlocked 2 [] (Some 0%nat)]
          (with_view_object (Some 0%nat) Sample.σ0))) ∧
  TopicDeleteView.get_success_url (Sample.view Sample.allow_all 5)
    (with_topic_objs [mkTopic 5 "hello" topic_unlocked 2 [] (Some 0%nat)]
       (with_view_object (Some 0%nat) Sample.σ0)) =
    (Ok (reverse "forum:forum" [("slug", ArgStr "archive"); ("pk", ArgInt 2)]),
     with_effects [MessageSuccess "This topic has been deleted successfully."]
       (with_topic_objs [mkTopic 5 "hello" topic_unlocked 2 [] (Some 0%nat)]
          (with_view_object (Some 0%nat) Sample.σ0))).
Proof.
  apply (get_success_url_emits_notice_except_for_move
           (Sample.view Sample.allow_all 5)
           (with_topic_objs [mkTopic 5 "hello" topic_unlocked 2 [] (Some 0%nat)]
              (with_view_object (Some 0%nat) Sample.σ0))
           0%nat 0%nat
           (mkTopic 5 "hello" topic_unlocked 2 [] (Some 0%nat))
           (forum_of_row 2 Sample.forum_B));
    reflexivity.
Defined.
